(** * Weather dashboard: the data pipeline, embedded and verified

    A shallow embedding of [data_generator.py], [data_processor.py] and the
    filter block of [app.py].

    - Measured values (temperature, humidity, rainfall) are real numbers [R];
      binary64 rounding is not modelled.
    - A pandas [Timestamp] at midnight is its proleptic Gregorian day number
      (the value of [toordinal()]), an integer.
    - A [DataFrame] is the list of its rows in order, each with its index
      label.
    - A Python call either returns a value or raises an exception, named by
      its class.
    - [np.random] is an oracle: a realization of the draws is an argument. *)

From Stdlib Require Import ZArith Reals Lra Lia List String Bool.
From stdpp Require Import base tactics option list gmap strings.
Import ListNotations.

Open Scope string_scope.
Open Scope Z_scope.

(** ** Outcomes of a call *)

Module Py.

Inductive outcome (A : Type) : Type :=
| Returned (a : A)
| Raised (exn : string).
Arguments Returned {A} a.
Arguments Raised {A} exn.

Definition raises {A} (c : outcome A) : Prop :=
  exists e, c = Raised e.

End Py.
Import Py.

#[global] Instance outcome_ret : MRet outcome := fun A a => Returned a.
#[global] Instance outcome_bind : MBind outcome := fun A B k c =>
  match c with
  | Returned a => k a
  | Raised e => Raised e
  end.

(** ** Calendar: day numbers of the proleptic Gregorian calendar *)

Module Calendar.

Abbreviation Timestamp := Z (only parsing).

Definition is_leap (y : Z) : bool :=
  ((y mod 4 =? 0) && negb (y mod 100 =? 0)) || (y mod 400 =? 0).

Definition days_in_month (y m : Z) : Z :=
  if m =? 2 then (if is_leap y then 29 else 28)
  else if (m =? 4) || (m =? 6) || (m =? 9) || (m =? 11) then 30
  else 31.

Definition days_before_year (y : Z) : Z :=
  let p := y - 1 in p * 365 + p / 4 - p / 100 + p / 400.

(** Days of year [y] before the first of month [m]. *)
Definition days_before_month (y m : Z) : Z :=
  fold_right Z.add 0
    (map (fun k => days_in_month y (Z.of_nat k)) (seq 1 (Z.to_nat m - 1))).

(** [pd.to_datetime('Y-M-D')] *)
Definition to_datetime (y m d : Z) : Timestamp :=
  days_before_year y + days_before_month y m + d.

Definition DI400Y : Z := 146097.
Definition DI100Y : Z := 36524.
Definition DI4Y : Z := 1461.

(** Year, month and day of a day number. *)
Definition ymd (t : Timestamp) : Z * Z * Z :=
  let n := t - 1 in
  let n400 := n / DI400Y in
  let n := n mod DI400Y in
  let n100 := n / DI100Y in
  let n := n mod DI100Y in
  let n4 := n / DI4Y in
  let n := n mod DI4Y in
  let n1 := n / 365 in
  let n := n mod 365 in
  let year := n400 * 400 + 1 + n100 * 100 + n4 * 4 + n1 in
  if (n1 =? 4) || (n100 =? 4) then (year - 1, 12, 31)
  else
    let month := Z.shiftr (n + 50) 5 in
    let preceding := days_before_month year month in
    if preceding >? n
    then (year, month - 1, n - (preceding - days_in_month year (month - 1)) + 1)
    else (year, month, n - preceding + 1).

(** [.dt.month] *)
Definition dt_month (t : Timestamp) : Z := snd (fst (ymd t)).

Definition month_names : list string :=
  ["January"; "February"; "March"; "April"; "May"; "June";
   "July"; "August"; "September"; "October"; "November"; "December"].

(** [.dt.month_name()] *)
Definition dt_month_name (t : Timestamp) : string :=
  nth (Z.to_nat (dt_month t - 1)) month_names "".

(** [pd.date_range(start, end, freq='D')]: every day from [start] to [stop],
    both included. *)
Definition date_range (start stop : Timestamp) : list Timestamp :=
  map (fun i => start + Z.of_nat i) (seq 0 (Z.to_nat (stop - start + 1))).

(** Every calendar day of year [y], month by month. *)
Definition days_of_year (y : Z) : list (Z * Z * Z) :=
  flat_map
    (fun m => map (fun d => (y, Z.of_nat m, Z.of_nat d))
                  (seq 1 (Z.to_nat (days_in_month y (Z.of_nat m)))))
    (seq 1 12).

End Calendar.
Import Calendar.

(** ** numpy: arrays as lists, the random module as an oracle *)

(** One realization of the draws of [np.random]: the value at each position
    of the array a call returns, for the call's parameters. *)
Record RandomState : Type := {
  normal : R -> R -> nat -> R;
  rand : nat -> R;
  exponential : R -> nat -> R
}.

Section Numpy.
Local Open Scope R_scope.

Definition Rgtb (x y : R) : bool := if Rgt_dec x y then true else false.

(** [np.arange(n)] *)
Definition np_arange (n : nat) : list R := map INR (seq 0 n).

(** [np.zeros(n)] *)
Definition np_zeros (n : nat) : list R := repeat 0 n.

(** [np.random.normal(loc, scale, size)] *)
Definition np_random_normal (rng : RandomState) (loc scale : R) (size : nat)
  : list R :=
  map (normal rng loc scale) (seq 0 size).

(** [np.random.rand(size)] *)
Definition np_random_rand (rng : RandomState) (size : nat) : list R :=
  map (rand rng) (seq 0 size).

(** [np.random.exponential(scale, size=size)] *)
Definition np_random_exponential (rng : RandomState) (scale : R) (size : nat)
  : list R :=
  map (exponential rng scale) (seq 0 size).

(** [a + b] on arrays of one shape *)
Definition np_add (a b : list R) : list R := zip_with Rplus a b.

(** [np.clip(a, a_min, a_max)] *)
Definition np_clip (a : list R) (a_min a_max : R) : list R :=
  map (fun x => Rmin (Rmax x a_min) a_max) a.

(** [a > c] *)
Definition np_gt (a : list R) (c : R) : list bool :=
  map (fun x => Rgtb x c) a.

(** [m1 & m2] and [~m] on boolean arrays *)
Definition np_and (m1 m2 : list bool) : list bool := zip_with andb m1 m2.
Definition np_not (m : list bool) : list bool := map negb m.

(** [np.sum(mask)] *)
Definition np_sum (mask : list bool) : nat :=
  length (List.filter (fun b => b) mask).

(** [a[mask] = vals]: the positions where the mask holds take the values in
    order. *)
Fixpoint put_mask (a : list R) (mask : list bool) (vals : list R) : list R :=
  match a, mask with
  | x :: a', true :: mask' =>
      match vals with
      | v :: vals' => v :: put_mask a' mask' vals'
      | [] => x :: put_mask a' mask' []
      end
  | x :: a', false :: mask' => x :: put_mask a' mask' vals
  | _, _ => a
  end.

(** The mask must have the shape of the array, and there must be as many
    values as positions to fill; a single value is broadcast to all of
    them. *)
Definition np_setitem_mask (a : list R) (mask : list bool) (vals : list R)
  : outcome (list R) :=
  if negb (length mask =? length a)%nat then Raised "IndexError"
  else if (length vals =? np_sum mask)%nat then Returned (put_mask a mask vals)
  else match vals with
       | [v] => Returned (put_mask a mask (repeat v (np_sum mask)))
       | _ => Raised "ValueError"
       end.

End Numpy.

(** ** The data model *)

Record WeatherRecord : Type := {
  date : Timestamp;
  temperature : R;
  humidity : R;
  rainfall : R;
  month : Z;
  month_name : string;
  season : string
}.

(** Rows in order, each with its index label. *)
Abbreviation DataFrame := (list (nat * WeatherRecord)) (only parsing).

Definition column {A} (f : WeatherRecord -> A) (df : DataFrame) : list A :=
  map (fun ir => f (snd ir)) df.

(** ** data_generator.py *)

Section Generator.
Local Open Scope R_scope.

Definition get_season (month : Z) : string :=
  if bool_decide (month ∈ [12; 1; 2]%Z) then "Winter"
  else if bool_decide (month ∈ [3; 4; 5]%Z) then "Spring"
  else if bool_decide (month ∈ [6; 7; 8]%Z) then "Summer"
  else "Fall".

(** [20 + 15 * np.sin((np.arange(n) / 365) * 2 * np.pi)] at one position *)
Definition base_temp (day_index : nat) : R :=
  20 + 15 * sin (INR day_index / 365 * 2 * PI).

Definition spring_fall (m : Z) : bool :=
  ((3 <=? m)%Z && (m <=? 5)%Z) || ((9 <=? m)%Z && (m <=? 11)%Z).

(** Row [i] of [pd.DataFrame({...})] with the three derived columns: it holds
    position [i] of every column, under the label [i] of the default index. *)
Definition frame_row (dates : list Timestamp)
    (temperatures humidities rainfalls : list R) (i : nat)
  : nat * WeatherRecord :=
  let d := nth i dates 0%Z in
  let m := dt_month d in
  (i, {| date := d;
         temperature := nth i temperatures 0;
         humidity := nth i humidities 0;
         rainfall := nth i rainfalls 0;
         month := m;
         month_name := dt_month_name d;
         season := get_season m |}).

(** Lines 31-53: the constructor refuses columns of different lengths. *)
Definition make_frame (dates : list Timestamp)
    (temperatures humidities rainfalls : list R) : outcome DataFrame :=
  let n := length dates in
  if negb ((length temperatures =? n)%nat && (length humidities =? n)%nat
           && (length rainfalls =? n)%nat)
  then Raised "ValueError"
  else Returned
         (map (frame_row dates temperatures humidities rainfalls) (seq 0 n)).

(** Lines 11-14: the seasonal curve plus the noise. *)
Definition temperatures (rng : RandomState) (n : nat) : list R :=
  let base := map (fun x => 20 + 15 * sin (x / 365 * 2 * PI)) (np_arange n) in
  np_add base (np_random_normal rng 0 3 n).

(** Lines 17-18. *)
Definition humidities (rng : RandomState) (n : nat) : list R :=
  let humidity :=
    np_add (map (fun x => 60 + 20 * sin (x / 365 * 2 * PI)) (np_arange n))
           (np_random_normal rng 0 10 n) in
  np_clip humidity 20 100.

(** Lines 21-28. *)
Definition rainfalls (rng : RandomState) (date_range : list Timestamp)
  : outcome (list R) :=
  let n := length date_range in
  let rainfall := np_zeros n in
  let spring_fall_mask := map spring_fall (map dt_month date_range) in
  let rain_prob := np_random_rand rng n in
  let wet := np_and spring_fall_mask (np_gt rain_prob 0.6) in
  rainfall ← np_setitem_mask rainfall wet
                (np_random_exponential rng 5 (np_sum wet));
  let dry := np_and (np_not spring_fall_mask) (np_gt rain_prob 0.8) in
  np_setitem_mask rainfall dry (np_random_exponential rng 2 (np_sum dry)).

Definition year_dates : list Timestamp :=
  Calendar.date_range (to_datetime 2024 1 1) (to_datetime 2024 12 31).

Definition generate_weather_data (rng : RandomState) : outcome DataFrame :=
  let date_range := year_dates in
  let n := length date_range in
  let temperatures := temperatures rng n in
  let humidity := humidities rng n in
  rainfall ← rainfalls rng date_range;
  make_frame date_range temperatures humidity rainfall.

(** The draws of an exponential distribution are never negative. *)
Definition exponential_nonneg (rng : RandomState) : Prop :=
  forall scale k, 0 <= scale -> 0 <= exponential rng scale k.

End Generator.

(** ** data_processor.py *)

(** A column with its index, [df[name]]. *)
Abbreviation Series := (list (nat * R)) (only parsing).

Definition series (f : WeatherRecord -> R) (df : DataFrame) : Series :=
  map (fun ir => (fst ir, f (snd ir))) df.

Section Processor.
Local Open Scope R_scope.

Definition Rltb (x y : R) : bool := if Rlt_dec x y then true else false.

(** The label of the first row holding the greatest value. *)
Fixpoint first_max (best_label : nat) (best : R) (s : Series) : nat :=
  match s with
  | [] => best_label
  | (l, v) :: s' =>
      if Rgtb v best then first_max l v s' else first_max best_label best s'
  end.

Fixpoint first_min (best_label : nat) (best : R) (s : Series) : nat :=
  match s with
  | [] => best_label
  | (l, v) :: s' =>
      if Rltb v best then first_min l v s' else first_min best_label best s'
  end.

(** [Series.idxmax()]: an empty series has no maximum. *)
Definition idxmax (s : Series) : outcome nat :=
  match s with
  | [] => Raised "ValueError"
  | (l, v) :: s' => Returned (first_max l v s')
  end.

Definition idxmin (s : Series) : outcome nat :=
  match s with
  | [] => Raised "ValueError"
  | (l, v) :: s' => Returned (first_min l v s')
  end.

(** [df.loc[label]], for a frame whose labels are distinct (as they are in
    every frame the generator and the filters build). *)
Fixpoint loc (df : DataFrame) (label : nat) : outcome WeatherRecord :=
  match df with
  | [] => Raised "KeyError"
  | (l, r) :: df' => if (l =? label)%nat then Returned r else loc df' label
  end.

Record ExtremeDays : Type := {
  hottest : WeatherRecord;
  coldest : WeatherRecord;
  wettest : WeatherRecord;
  most_humid : WeatherRecord
}.

Definition get_extreme_days (df : DataFrame) : outcome ExtremeDays :=
  hottest_day ← (i ← idxmax (series temperature df); loc df i);
  coldest_day ← (i ← idxmin (series temperature df); loc df i);
  wettest_day ← (i ← idxmax (series rainfall df); loc df i);
  most_humid_day ← (i ← idxmax (series humidity df); loc df i);
  mret {| hottest := hottest_day;
          coldest := coldest_day;
          wettest := wettest_day;
          most_humid := most_humid_day |}.

(** [get_rainy_days_count] *)
Definition get_rainy_days_count (df : DataFrame) : nat :=
  np_sum (np_gt (column rainfall df) 0.1).

(** A cell of an aggregate table; [None] is NaN. *)
Abbreviation cell := (option R) (only parsing).

Record Averages : Type := {
  avg_temperature : cell;
  avg_humidity : cell;
  avg_rainfall : cell
}.

Definition nan_row : Averages :=
  {| avg_temperature := None; avg_humidity := None; avg_rainfall := None |}.

Definition mean (l : list R) : R := fold_right Rplus 0 l / INR (length l).

Definition group_mean (rows : list WeatherRecord) : Averages :=
  {| avg_temperature := Some (mean (map temperature rows));
     avg_humidity := Some (mean (map humidity rows));
     avg_rainfall := Some (mean (map rainfall rows)) |}.

(** [df.groupby(key)]: the rows of each key that occurs, in frame order. *)
Definition groupby (key : WeatherRecord -> string) (df : DataFrame)
  : gmap string (list WeatherRecord) :=
  foldr (fun ir g =>
           let r := snd ir in
           <[key r := r :: default [] (g !! key r)]> g)
        ∅ df.

(** [table.reindex(order)]: one row per label of [order], in that order; a
    label the table lacks gets a row of NaN. *)
Definition reindex (order : list string) (table : gmap string Averages)
  : list (string * Averages) :=
  map (fun k => (k, default nan_row (table !! k))) order.

Definition month_order : list string :=
  ["January"; "February"; "March"; "April"; "May"; "June";
   "July"; "August"; "September"; "October"; "November"; "December"].

Definition get_monthly_averages (df : DataFrame) : list (string * Averages) :=
  let monthly_avg := group_mean <$> groupby month_name df in
  reindex month_order monthly_avg.

Definition season_order : list string := ["Winter"; "Spring"; "Summer"; "Fall"].

Definition get_seasonal_averages (df : DataFrame) : list (string * Averages) :=
  let seasonal_avg := group_mean <$> groupby season df in
  reindex season_order seasonal_avg.

(** The [comfort_index] series of [get_comfort_index].  Every series here
    carries the index of [df], so the sum, and later the assignment to the
    copy, pair the values by position. *)
Definition comfort_index_values (df : DataFrame) : list R :=
  let temp_comfort := map (fun t => Rabs (t - 23)) (column temperature df) in
  let humidity_discomfort :=
    map (fun h => Rmax 0 (h - 60) / 10) (column humidity df) in
  np_add temp_comfort humidity_discomfort.

End Processor.

(** *** Frames as objects

    [get_comfort_index] copies its argument and assigns a column of the
    copy.  Frames live in a store, and a variable holds a reference. *)

Record Frame : Type := {
  frame_rows : DataFrame;
  frame_comfort_index : option (list R)
}.

Abbreviation ref := nat (only parsing).
Abbreviation store := (gmap nat Frame) (only parsing).

(** A stateful computation; [None] is the use of a dangling reference. *)
Definition St (A : Type) : Type := store -> option (A * store).

#[global] Instance St_ret : MRet St := fun A a σ => Some (a, σ).
#[global] Instance St_bind : MBind St := fun A B k c σ =>
  match c σ with
  | Some (a, σ') => k a σ'
  | None => None
  end.

(** Reading the frame behind a reference. *)
Definition deref (df : ref) : St Frame :=
  fun σ => match σ !! df with
           | Some f => Some (f, σ)
           | None => None
           end.

(** [df.copy()]: a new object with the same contents. *)
Definition df_copy (df : ref) : St ref :=
  fun σ => match σ !! df with
           | Some f => let r := fresh (dom σ) in Some (r, <[r := f]> σ)
           | None => None
           end.

(** [df['comfort_index'] = values]: the column is added to (or replaced in)
    the object behind [df]. *)
Definition setitem_comfort_index (df : ref) (values : list R) : St unit :=
  fun σ => match σ !! df with
           | Some f =>
               Some (tt, <[df := {| frame_rows := frame_rows f;
                                    frame_comfort_index := Some values |}]> σ)
           | None => None
           end.

Definition get_comfort_index (df : ref) : St ref :=
  f ← deref df;
  let comfort_index := comfort_index_values (frame_rows f) in
  df_comfort ← df_copy df;
  _ ← setitem_comfort_index df_comfort comfort_index;
  mret df_comfort.

(** ** app.py: the filter block *)

Definition ALL_SEASONS : string := "All Seasons".

Definition apply_filters (weather_data : DataFrame)
    (date_range : list Timestamp) (season_filter : string)
  : outcome DataFrame :=
  let filtered_data := weather_data in
  let filtered_data :=
    match date_range with
    | [start_date; end_date] =>
        List.filter (fun ir => (start_date <=? date (snd ir))
                               && (date (snd ir) <=? end_date))
                    filtered_data
    | _ => filtered_data
    end in
  let filtered_data :=
    if negb (String.eqb season_filter ALL_SEASONS)
    then List.filter (fun ir => String.eqb (season (snd ir)) season_filter)
                     filtered_data
    else filtered_data in
  Returned filtered_data.

(** The fixed mapping from months to seasons, as a relation. *)
Definition season_of (m : Z) (s : string) : Prop :=
  (s = "Winter" /\ (m = 12 \/ m = 1 \/ m = 2))
  \/ (s = "Spring" /\ (m = 3 \/ m = 4 \/ m = 5))
  \/ (s = "Summer" /\ (m = 6 \/ m = 7 \/ m = 8))
  \/ (s = "Fall" /\ (m = 9 \/ m = 10 \/ m = 11)).

(** What the calendar columns of a row must be, given its date. *)
Definition calendar_consistent (r : WeatherRecord) : Prop :=
  month r = dt_month (date r)
  /\ 1 <= month r <= 12
  /\ month_names !! Z.to_nat (month r - 1) = Some (month_name r)
  /\ season r = get_season (month r)
  /\ season_of (month r) (season r).

(** A day index of June or July, the middle of the year. *)
Definition mid_year (day_index : nat) : Prop :=
  exists d, year_dates !! day_index = Some d
            /\ (dt_month d = 6 \/ dt_month d = 7).

(** One realization of the draws: every normal draw one deviation above the
    mean, rain every day, every exponential draw at its mean. *)
Definition sample_rng : RandomState :=
  {| normal := fun loc scale _ => (loc + scale)%R;
     rand := fun _ => 0.9%R;
     exponential := fun scale _ => scale |}.

(** A store with one frame of two rows, one at the ideal temperature and
    humidity, one ten degrees warmer and twenty points more humid. *)
Definition sample_row (d : Timestamp) (t h rain : R) : WeatherRecord :=
  {| date := d; temperature := t; humidity := h; rainfall := rain;
     month := dt_month d; month_name := dt_month_name d;
     season := get_season (dt_month d) |}.

Definition sample_frame : DataFrame :=
  [(0%nat, sample_row (to_datetime 2024 1 1) 23 60 0);
   (1%nat, sample_row (to_datetime 2024 1 2) 33 80 0)].

Definition sample_store : gmap nat Frame :=
  {[ 0%nat := {| frame_rows := sample_frame; frame_comfort_index := None |} ]}.

(** The rows of a frame whose key is [k], in frame order. *)
Definition rows_of (key : WeatherRecord -> string) (k : string)
    (df : DataFrame) : list WeatherRecord :=
  List.filter (fun r => String.eqb (key r) k) (map snd df).

(** ** app.py: the metrics computed from the filtered data *)

(** What the two filters ask of a row. *)
Definition in_date_range (date_range : list Timestamp) (d : Timestamp) : Prop :=
  match date_range with
  | [start_date; end_date] => start_date <= d <= end_date
  | _ => True
  end.

Definition season_selected (season_filter s : string) : Prop :=
  season_filter = ALL_SEASONS \/ s = season_filter.

(** Lines 107-118: the filters, then the extreme days of what they keep. *)
Definition filtered_extreme_days (weather_data : DataFrame)
    (date_range : list Timestamp) (season_filter : string)
  : outcome ExtremeDays :=
  filtered_data ← apply_filters weather_data date_range season_filter;
  get_extreme_days filtered_data.

(** [r] is the first row of [df], in frame order, at which [f] is greatest:
    the rows before it are strictly below, the rows after it are not
    above. *)
Definition first_greatest (f : WeatherRecord -> R) (df : DataFrame)
    (r : WeatherRecord) : Prop :=
  exists before l after,
    df = (before ++ (l, r) :: after)%list
    /\ Forall (fun ir => (f (snd ir) < f r)%R) before
    /\ Forall (fun ir => (f (snd ir) <= f r)%R) after.

Definition first_least (f : WeatherRecord -> R) (df : DataFrame)
    (r : WeatherRecord) : Prop :=
  exists before l after,
    df = (before ++ (l, r) :: after)%list
    /\ Forall (fun ir => (f r < f (snd ir))%R) before
    /\ Forall (fun ir => (f r <= f (snd ir))%R) after.

(** ** app.py: the comfort index tab *)

(** [l[mask]]: the entries at the positions where the mask holds. *)
Fixpoint boolean_index {A} (mask : list bool) (l : list A) : list A :=
  match mask, l with
  | b :: mask', x :: l' =>
      if b then x :: boolean_index mask' l' else boolean_index mask' l'
  | _, _ => []
  end.

(** [frame[mask]] on a frame that may carry the comfort index column. *)
Definition frame_getitem_mask (f : Frame) (mask : list bool) : Frame :=
  {| frame_rows := boolean_index mask (frame_rows f);
     frame_comfort_index := boolean_index mask <$> frame_comfort_index f |}.

(** Lines 434-441: the same two filters, on the frame with the comfort
    index. *)
Definition apply_filters_comfort (weather_data_comfort : Frame)
    (date_range : list Timestamp) (season_filter : string) : outcome Frame :=
  let filtered_comfort := weather_data_comfort in
  let filtered_comfort :=
    match date_range with
    | [start_date; end_date] =>
        frame_getitem_mask filtered_comfort
          (map (fun ir => (start_date <=? date (snd ir))
                          && (date (snd ir) <=? end_date))
               (frame_rows filtered_comfort))
    | _ => filtered_comfort
    end in
  let filtered_comfort :=
    if negb (String.eqb season_filter ALL_SEASONS)
    then frame_getitem_mask filtered_comfort
           (map (fun ir => String.eqb (season (snd ir)) season_filter)
                (frame_rows filtered_comfort))
    else filtered_comfort in
  Returned filtered_comfort.

(** Line 462: [groupby('season')['comfort_index'].mean().reindex(...)].  A
    frame without the column has no such key. *)
Definition comfort_by_season (filtered_comfort : Frame)
  : outcome (list (string * option R)) :=
  match frame_comfort_index filtered_comfort with
  | None => Raised "KeyError"
  | Some values =>
      let groups : gmap string (list R) :=
        foldr (fun sc g => <[fst sc := snd sc :: default [] (g !! fst sc)]> g)
              ∅ (zip (column season (frame_rows filtered_comfort)) values) in
      Returned (map (fun k => (k, mean <$> groups !! k)) season_order)
  end.

(** ** The two rain gates of the generator *)

Section RainGates.
Local Open Scope R_scope.




End RainGates.

(** ** data_processor.py: summary statistics and correlations *)

Section Statistics.
Local Open Scope R_scope.

(** [Series.sort_values()] *)
Fixpoint insert_sorted (x : R) (l : list R) : list R :=
  match l with
  | [] => [x]
  | y :: l' => if Rle_dec x y then x :: y :: l' else y :: insert_sorted x l'
  end.

Definition sort_values (l : list R) : list R := fold_right insert_sorted [] l.

(** The value at a position given in quarters of a step between two
    neighbours of a sorted array: linear interpolation. *)
Definition interpolate (sorted : list R) (quarters : nat) : R :=
  let j := (quarters / 4)%nat in
  let gamma := INR (quarters mod 4) / 4 in
  let lower := nth j sorted 0 in
  let upper := nth (Nat.min (S j) (length sorted - 1)) sorted 0 in
  lower + gamma * (upper - lower).

(** [Series.quantile(k / 4)]: position [(n - 1) * k / 4] of the sorted
    values; NaN on an empty series. *)
Definition quantile4 (k : nat) (l : list R) : option R :=
  match l with
  | [] => None
  | _ => Some (interpolate (sort_values l) ((length l - 1) * k))
  end.

(** [Series.mean()], [min()], [max()]: NaN on an empty series. *)
Definition series_mean (l : list R) : option R :=
  match l with
  | [] => None
  | _ => Some (mean l)
  end.

Definition series_min (l : list R) : option R :=
  match l with
  | [] => None
  | x :: l' => Some (fold_left Rmin l' x)
  end.

Definition series_max (l : list R) : option R :=
  match l with
  | [] => None
  | x :: l' => Some (fold_left Rmax l' x)
  end.

(** [Series.std()], with [n - 1] in the denominator: NaN below two
    values. *)
Definition series_std (l : list R) : option R :=
  match l with
  | [] | [_] => None
  | _ =>
      let m := mean l in
      Some (sqrt (fold_right Rplus 0 (map (fun x => (x - m) * (x - m)) l)
                  / (INR (length l) - 1)))
  end.

(** One column of [describe()]. *)
Record Description : Type := {
  stat_count : R;
  stat_mean : option R;
  stat_std : option R;
  stat_min : option R;
  stat_q25 : option R;
  stat_q50 : option R;
  stat_q75 : option R;
  stat_max : option R
}.

Definition describe (l : list R) : Description :=
  {| stat_count := INR (length l);
     stat_mean := series_mean l;
     stat_std := series_std l;
     stat_min := series_min l;
     stat_q25 := quantile4 1 l;
     stat_q50 := quantile4 2 l;
     stat_q75 := quantile4 3 l;
     stat_max := series_max l |}.

Record SummaryStats : Type := {
  summary_temperature : Description;
  summary_humidity : Description;
  summary_rainfall : Description
}.

Definition get_summary_stats (df : DataFrame) : SummaryStats :=
  {| summary_temperature := describe (column temperature df);
     summary_humidity := describe (column humidity df);
     summary_rainfall := describe (column rainfall df) |}.

(** Pearson's coefficient of two columns of one frame: the sum of the
    products of the deviations from the means, over the root of the product
    of the two sums of squared deviations; NaN without observations or when
    that root is 0. *)
Definition deviations (l : list R) : list R := map (fun x => x - mean l) l.

Definition dot (a b : list R) : R := fold_right Rplus 0 (zip_with Rmult a b).

Definition pearson (x y : list R) : option R :=
  match x with
  | [] => None
  | _ =>
      let dx := deviations x in
      let dy := deviations y in
      let divisor := sqrt (dot dx dx * dot dy dy) in
      if Req_dec_T divisor 0 then None else Some (dot dx dy / divisor)
  end.

Definition metrics : list (WeatherRecord -> R) :=
  [temperature; humidity; rainfall].

(** [df[['temperature', 'humidity', 'rainfall']].corr()], row by row. *)
Definition get_correlation_data (df : DataFrame) : list (list (option R)) :=
  map (fun f => map (fun g => pearson (column f df) (column g df)) metrics)
      metrics.

End Statistics.

(** A list in ascending order: every entry is at most every later one. *)
Fixpoint ascending (l : list R) : Prop :=
  match l with
  | [] => True
  | x :: l' => Forall (fun y => (x <= y)%R) l' /\ ascending l'
  end.

(** ** app.py: the key metrics *)

Section KeyMetrics.
Local Open Scope R_scope.

(** A difference of two numbers either of which may be NaN. *)
Definition nan_sub (a b : option R) : option R :=
  match a, b with
  | Some x, Some y => Some (x - y)
  | _, _ => None
  end.

Record KeyMetrics : Type := {
  km_extreme_days : ExtremeDays;
  km_rainy_days : nat;
  km_avg_temp : option R;
  km_avg_humidity : option R;
  km_avg_rainfall : option R;
  km_delta_temp : option R;
  km_delta_humidity : option R;
  km_delta_rainfall : option R;
  km_delta_rainy_days : Z
}.

(** Lines 107-165: the filters, the metrics of the filtered data and their
    differences from the metrics of all the data. *)
Definition key_metrics (weather_data : DataFrame)
    (date_range : list Timestamp) (season_filter : string)
  : outcome KeyMetrics :=
  filtered_data ← apply_filters weather_data date_range season_filter;
  filtered_extreme_days ← get_extreme_days filtered_data;
  let rainy_days := get_rainy_days_count filtered_data in
  let avg_temp := series_mean (column temperature filtered_data) in
  let avg_humidity := series_mean (column humidity filtered_data) in
  let avg_rainfall := series_mean (column rainfall filtered_data) in
  mret {| km_extreme_days := filtered_extreme_days;
          km_rainy_days := rainy_days;
          km_avg_temp := avg_temp;
          km_avg_humidity := avg_humidity;
          km_avg_rainfall := avg_rainfall;
          km_delta_temp :=
            nan_sub avg_temp (series_mean (column temperature weather_data));
          km_delta_humidity :=
            nan_sub avg_humidity (series_mean (column humidity weather_data));
          km_delta_rainfall :=
            nan_sub avg_rainfall (series_mean (column rainfall weather_data));
          km_delta_rainy_days :=
            (Z.of_nat rainy_days
             - Z.of_nat (get_rainy_days_count weather_data))%Z |}.

End KeyMetrics.

(** * Properties *)

(** ** Calendar facts *)

Lemma year_dates_length : length year_dates = 366%nat.
Proof. reflexivity. Qed.

Lemma year_dates_calendar : map ymd year_dates = days_of_year 2024.
Proof. vm_compute. reflexivity. Qed.

Lemma date_range_lookup (start stop : Timestamp) (i : nat) (d : Timestamp) :
  date_range start stop !! i = Some d -> d = start + Z.of_nat i.
Proof.
  unfold date_range. rewrite list_lookup_fmap.
  destruct (seq 0 _ !! i) as [k|] eqn:E; simpl; [|discriminate].
  apply lookup_seq in E as [-> _]. intros [= <-]. reflexivity.
Qed.

Lemma date_range_step (start stop : Timestamp) (i : nat) (d d' : Timestamp) :
  date_range start stop !! i = Some d ->
  date_range start stop !! S i = Some d' ->
  d' = d + 1.
Proof.
  intros H1 H2.
  apply date_range_lookup in H1. apply date_range_lookup in H2. lia.
Qed.

Lemma year_dates_months :
  Forall (fun d => 1 <= dt_month d <= 12) year_dates.
Proof.
  apply Forall_forall. intros d Hd.
  assert (H : forallb (fun d => (1 <=? dt_month d) && (dt_month d <=? 12))
                      year_dates = true) by (vm_compute; reflexivity).
  rewrite forallb_forall in H. apply list_elem_of_In in Hd.
  specialize (H d Hd). lia.
Qed.

(** ** numpy facts *)

Section NumpyFacts.
Local Open Scope R_scope.

Lemma put_mask_length (a : list R) : forall mask vals,
  length (put_mask a mask vals) = length a.
Proof.
  induction a as [|x a IH]; intros [|[] mask] vals; simpl; auto.
  destruct vals; simpl; auto.
Qed.

Lemma put_mask_Forall (P : R -> Prop) (a : list R) : forall mask vals,
  Forall P a -> Forall P vals -> Forall P (put_mask a mask vals).
Proof.
  induction a as [|x a IH]; intros [|[] mask] vals Ha Hv; simpl; auto.
  - inversion Ha; subst.
    destruct vals as [|v vals]; [|inversion Hv; subst]; constructor; auto.
  - inversion Ha; subst. constructor; auto.
Qed.

Lemma np_setitem_mask_returns (a : list R) (mask : list bool) (vals : list R) :
  length mask = length a ->
  length vals = np_sum mask ->
  np_setitem_mask a mask vals = Returned (put_mask a mask vals).
Proof.
  intros Hm Hv. unfold np_setitem_mask.
  rewrite Hm, Hv, !Nat.eqb_refl. reflexivity.
Qed.

Lemma np_random_exponential_length rng scale size :
  length (np_random_exponential rng scale size) = size.
Proof. unfold np_random_exponential. now rewrite length_map, length_seq. Qed.

Lemma np_random_normal_length rng loc scale size :
  length (np_random_normal rng loc scale size) = size.
Proof. unfold np_random_normal. now rewrite length_map, length_seq. Qed.

Lemma np_random_rand_length rng size :
  length (np_random_rand rng size) = size.
Proof. unfold np_random_rand. now rewrite length_map, length_seq. Qed.

Lemma np_arange_length n : length (np_arange n) = n.
Proof. unfold np_arange. now rewrite length_map, length_seq. Qed.

Lemma np_clip_bounds (a : list R) (lo hi : R) :
  lo <= hi -> Forall (fun x => lo <= x <= hi) (np_clip a lo hi).
Proof.
  intros Hle. unfold np_clip. apply Forall_forall. intros y Hy.
  apply list_elem_of_In, in_map_iff in Hy as (x & <- & _). split.
  - apply Rmin_glb; [apply Rmax_r | exact Hle].
  - apply Rmin_r.
Qed.

End NumpyFacts.

(** ** The generator *)

Section GeneratorFacts.
Local Open Scope R_scope.

Lemma temperatures_length rng n : length (temperatures rng n) = n.
Proof.
  unfold temperatures, np_add.
  rewrite length_zip_with, length_map, np_arange_length,
    np_random_normal_length.
  lia.
Qed.

Lemma humidities_length rng n : length (humidities rng n) = n.
Proof.
  unfold humidities, np_clip, np_add.
  rewrite length_map, length_zip_with, length_map, np_arange_length,
    np_random_normal_length.
  lia.
Qed.

Lemma temperatures_nth rng n i :
  (i < n)%nat ->
  nth i (temperatures rng n) 0 = base_temp i + normal rng 0 3 i.
Proof.
  intros Hi. apply nth_lookup_Some with (d := 0).
  unfold temperatures, np_add, np_arange, np_random_normal.
  rewrite lookup_zip_with, !list_lookup_fmap.
  rewrite (lookup_seq_lt 0 n i Hi). reflexivity.
Qed.

Lemma humidities_bounds rng n :
  Forall (fun h => 20 <= h <= 100) (humidities rng n).
Proof. unfold humidities. apply np_clip_bounds. lra. Qed.

Lemma mask_length (m : list Z) (p : list R) (c : R) (f : Z -> bool) :
  length p = length m ->
  length (np_and (map f m) (np_gt p c)) = length m.
Proof.
  intros H. unfold np_and, np_gt.
  rewrite length_zip_with, !length_map. lia.
Qed.

Lemma rainfalls_returns rng dates :
  exists rains,
    rainfalls rng dates = Returned rains
    /\ length rains = length dates
    /\ (exponential_nonneg rng -> Forall (fun x => 0 <= x) rains).
Proof.
  unfold rainfalls.
  set (n := length dates).
  set (months := map dt_month dates).
  assert (Hmonths : length months = n) by (unfold months; apply length_map).
  set (wet := np_and _ (np_gt _ 0.6)).
  set (dry := np_and _ (np_gt _ 0.8)).
  assert (Hwet : length wet = n).
  { unfold wet. rewrite mask_length; [exact Hmonths|].
    now rewrite np_random_rand_length. }
  assert (Hdry : length dry = n).
  { unfold dry, np_not. rewrite map_map, mask_length; [exact Hmonths|].
    now rewrite np_random_rand_length. }
  rewrite np_setitem_mask_returns;
    [| now rewrite Hwet; unfold np_zeros; rewrite repeat_length
     | apply np_random_exponential_length ].
  cbn [mbind outcome_bind].
  rewrite np_setitem_mask_returns;
    [| now rewrite put_mask_length; unfold np_zeros; rewrite repeat_length
     | apply np_random_exponential_length ].
  eexists. split; [reflexivity|]. split.
  - rewrite !put_mask_length. unfold np_zeros. apply repeat_length.
  - intros Hexp.
    assert (Hdraws : forall scale k, 0 <= scale ->
               Forall (fun x => 0 <= x) (np_random_exponential rng scale k)).
    { intros scale k Hscale. apply Forall_forall. intros x Hx.
      apply list_elem_of_In, in_map_iff in Hx as (j & <- & _).
      apply Hexp, Hscale. }
    apply put_mask_Forall; [apply put_mask_Forall|];
      try (apply Hdraws; lra).
    apply Forall_forall. intros x Hx.
    apply list_elem_of_In, repeat_spec in Hx. lra.
Qed.

Lemma make_frame_returns dates temps hums rains :
  length temps = length dates ->
  length hums = length dates ->
  length rains = length dates ->
  make_frame dates temps hums rains
  = Returned (map (frame_row dates temps hums rains) (seq 0 (length dates))).
Proof.
  intros H1 H2 H3. unfold make_frame.
  rewrite H1, H2, H3, !Nat.eqb_refl. reflexivity.
Qed.

(** The generator never fails, and its rows are the positions of its
    columns. *)
Lemma generate_weather_data_returns rng :
  exists rains,
    rainfalls rng year_dates = Returned rains
    /\ length rains = 366%nat
    /\ generate_weather_data rng
       = Returned (map (frame_row year_dates (temperatures rng 366)
                                  (humidities rng 366) rains)
                       (seq 0 366)).
Proof.
  destruct (rainfalls_returns rng year_dates) as (rains & Hr & Hlen & _).
  exists rains. split; [exact Hr|]. split; [exact Hlen|].
  unfold generate_weather_data. rewrite Hr. cbn [mbind outcome_bind].
  rewrite make_frame_returns.
  - rewrite year_dates_length. reflexivity.
  - apply temperatures_length.
  - apply humidities_length.
  - exact Hlen.
Qed.

End GeneratorFacts.

Lemma map_nth_seq_id {A} (l : list A) (d : A) :
  map (fun i => nth i l d) (seq 0 (length l)) = l.
Proof.
  apply list_eq. intros i. rewrite list_lookup_fmap.
  destruct (l !! i) as [x|] eqn:E.
  - rewrite lookup_seq_lt by (eapply lookup_lt_Some; eauto). simpl.
    f_equal. now apply nth_lookup_Some.
  - apply lookup_ge_None in E. rewrite lookup_seq_ge by lia. reflexivity.
Qed.

Lemma frame_dates dates temps hums rains :
  column date (map (frame_row dates temps hums rains) (seq 0 (length dates)))
  = dates.
Proof.
  unfold column. rewrite map_map. simpl. apply map_nth_seq_id.
Qed.

Lemma get_season_mapping (m : Z) :
  1 <= m <= 12 -> season_of m (get_season m).
Proof.
  intros Hm. unfold season_of.
  assert (m = 1 \/ m = 2 \/ m = 3 \/ m = 4 \/ m = 5 \/ m = 6 \/ m = 7
          \/ m = 8 \/ m = 9 \/ m = 10 \/ m = 11 \/ m = 12) as H by lia.
  repeat destruct H as [H|H]; subst m; vm_compute; intuition congruence.
Qed.

Lemma season_of_functional (m : Z) (s s' : string) :
  season_of m s -> season_of m s' -> s = s'.
Proof. unfold season_of. intros H H'. intuition (subst; lia || reflexivity). Qed.

Lemma frame_row_calendar dates temps hums rains i :
  Forall (fun d => 1 <= dt_month d <= 12) dates ->
  (i < length dates)%nat ->
  calendar_consistent (snd (frame_row dates temps hums rains i)).
Proof.
  intros Hdates Hi. unfold calendar_consistent, frame_row. simpl.
  assert (Hm : 1 <= dt_month (nth i dates 0) <= 12).
  { rewrite Forall_forall in Hdates. apply Hdates.
    apply list_elem_of_In, nth_In, Hi. }
  split; [reflexivity|]. split; [exact Hm|]. split.
  - unfold dt_month_name.
    destruct (nth_lookup_or_length month_names
                (Z.to_nat (dt_month (nth i dates 0) - 1)) "") as [E|E];
      [exact E|].
    change (length month_names) with 12%nat in E. lia.
  - split; [reflexivity|]. apply get_season_mapping, Hm.
Qed.

(** C2. The generator always returns 366 rows; their dates are the days
    from January 1 to December 31 of 2024, each calendar day once, every date
    one day after the one before, hence strictly increasing. *)
Theorem generated_dates_cover_the_year (rng : RandomState) :
  exists df,
    generate_weather_data rng = Returned df
    /\ length df = 366%nat
    /\ map ymd (column date df) = days_of_year 2024
    /\ column date df !! 0%nat = Some (to_datetime 2024 1 1)
    /\ column date df !! 365%nat = Some (to_datetime 2024 12 31)
    /\ (forall i d d',
          column date df !! i = Some d -> column date df !! S i = Some d' ->
          d' = d + 1)
    /\ (forall i j d d',
          (i < j)%nat ->
          column date df !! i = Some d -> column date df !! j = Some d' ->
          d < d').
Proof.
  destruct (generate_weather_data_returns rng) as (rains & _ & _ & Hgen).
  eexists. split; [exact Hgen|].
  split; [now rewrite length_map, length_seq|].
  change 366%nat with (length year_dates). rewrite frame_dates.
  split; [exact year_dates_calendar|].
  split; [reflexivity|]. split; [reflexivity|]. split.
  - intros i d d'. apply date_range_step.
  - intros i j d d' Hij Hi Hj.
    apply date_range_lookup in Hi. apply date_range_lookup in Hj. lia.
Qed.

Lemma generated_dates_cover_the_year_witness :
  exists df,
    generate_weather_data sample_rng = Returned df
    /\ length df = 366%nat
    /\ column date df !! 1%nat = Some (to_datetime 2024 1 2).
Proof.
  destruct (generated_dates_cover_the_year sample_rng)
    as (df & Hgen & Hlen & _ & H0 & _ & Hstep & _).
  exists df. split; [exact Hgen|]. split; [exact Hlen|].
  destruct (column date df !! 1%nat) as [d|] eqn:E.
  - rewrite (Hstep 0%nat _ d H0 E). reflexivity.
  - apply lookup_ge_None in E. unfold column in E.
    rewrite length_map, Hlen in E. lia.
Defined.

(** C3. Whatever the draws (those of the exponential distribution being
    non-negative), every generated row has its humidity in [20, 100] and a
    rainfall of at least 0. *)
Theorem generated_humidity_and_rainfall_in_range (rng : RandomState) :
  exponential_nonneg rng ->
  exists df,
    generate_weather_data rng = Returned df
    /\ Forall (fun ir => (20 <= humidity (snd ir) <= 100)%R
                         /\ (0 <= rainfall (snd ir))%R) df.
Proof.
  intros Hexp.
  destruct (rainfalls_returns rng year_dates) as (rains & Hr & Hlen & Hpos).
  destruct (generate_weather_data_returns rng) as (rains' & Hr' & _ & Hgen).
  assert (rains' = rains) by congruence. subst rains'.
  specialize (Hpos Hexp).
  eexists. split; [exact Hgen|].
  apply Forall_forall. intros ir Hir.
  apply list_elem_of_In, in_map_iff in Hir as (i & <- & Hi).
  apply in_seq in Hi. unfold frame_row. cbn [snd humidity rainfall]. split.
  - pose proof (humidities_bounds rng 366) as Hb.
    rewrite Forall_forall in Hb. apply Hb, list_elem_of_In, nth_In.
    rewrite humidities_length. lia.
  - rewrite Forall_forall in Hpos. apply Hpos, list_elem_of_In, nth_In.
    rewrite Hlen, year_dates_length. lia.
Qed.

Lemma generated_humidity_and_rainfall_in_range_witness :
  exponential_nonneg sample_rng
  /\ exists df,
       generate_weather_data sample_rng = Returned df
       /\ Forall (fun ir => (20 <= humidity (snd ir) <= 100)%R
                            /\ (0 <= rainfall (snd ir))%R) df.
Proof.
  assert (H : exponential_nonneg sample_rng)
    by (intros scale k Hscale; exact Hscale).
  split; [exact H|].
  exact (generated_humidity_and_rainfall_in_range sample_rng H).
Defined.

Lemma year_dates_lookup (i : nat) :
  (i < 366)%nat ->
  year_dates !! i = Some (to_datetime 2024 1 1 + Z.of_nat i).
Proof.
  intros Hi. unfold year_dates, date_range.
  change (Z.to_nat (to_datetime 2024 12 31 - to_datetime 2024 1 1 + 1))
    with 366%nat.
  rewrite list_lookup_fmap, (lookup_seq_lt 0 366 i Hi). reflexivity.
Qed.

Lemma july_day_number (d : Z) :
  to_datetime 2024 7 d = to_datetime 2024 1 1 + (181 + d).
Proof.
  unfold to_datetime.
  change (days_before_month 2024 7) with 182.
  change (days_before_month 2024 1) with 0.
  lia.
Qed.

Lemma july_days_month (d : Z) :
  1 <= d <= 31 -> dt_month (to_datetime 2024 7 d) = 7.
Proof.
  intros Hd.
  assert (H : forallb (fun k => dt_month (to_datetime 2024 7 (Z.of_nat k)) =? 7)
                      (seq 1 31) = true) by (vm_compute; reflexivity).
  rewrite forallb_forall in H.
  specialize (H (Z.to_nat d)). rewrite Z2Nat.id in H by lia.
  apply Z.eqb_eq, H, in_seq. lia.
Qed.

(** C4. In every generated row, month and month name are those of the
    row's date and the season is the one the fixed mapping gives to the
    month: row by row, the frame follows the calendar of 2024.  A date in
    July has season Summer and month name July. *)
Theorem generated_calendar_columns (rng : RandomState) :
  exists df,
    generate_weather_data rng = Returned df
    /\ Forall (fun ir => calendar_consistent (snd ir)) df
    /\ Forall (fun ir => dt_month (date (snd ir)) = 7 ->
                         season (snd ir) = "Summer"
                         /\ month_name (snd ir) = "July") df
    /\ Forall2 (fun ir (day : Z * Z * Z) =>
                  let '(y, m, d) := day in
                  date (snd ir) = to_datetime y m d
                  /\ month (snd ir) = m
                  /\ ["January"; "February"; "March"; "April"; "May"; "June";
                      "July"; "August"; "September"; "October"; "November";
                      "December"] !! Z.to_nat (m - 1)
                     = Some (month_name (snd ir))
                  /\ season_of m (season (snd ir)))
               df (days_of_year 2024)
    /\ (forall d, 1 <= d <= 31 ->
          exists r,
            df !! Z.to_nat (181 + d) = Some (Z.to_nat (181 + d), r)
            /\ date r = to_datetime 2024 7 d
            /\ month r = 7
            /\ month_name r = "July"
            /\ season r = "Summer").
Proof.
  destruct (generate_weather_data_returns rng) as (rains & _ & _ & Hgen).
  eexists. split; [exact Hgen|].
  set (row := frame_row year_dates (temperatures rng 366)
                        (humidities rng 366) rains).
  assert (Hrow : forall i, (i < 366)%nat -> calendar_consistent (snd (row i))).
  { intros i Hi. apply frame_row_calendar; [exact year_dates_months|].
    rewrite year_dates_length. exact Hi. }
  assert (Hall : Forall (fun ir => calendar_consistent (snd ir))
                        (map row (seq 0 366))).
  { apply Forall_forall. intros ir Hir.
    apply list_elem_of_In, in_map_iff in Hir as (i & <- & Hi).
    apply in_seq in Hi. apply Hrow. lia. }
  split; [exact Hall|]. split; [|split].
  - eapply Forall_impl; [exact Hall|].
    intros [l r] (Hm & _ & Hname & Hs & _) H7. simpl in *.
    rewrite <- Hm in H7. rewrite H7 in Hname, Hs. split.
    + rewrite Hs. reflexivity.
    + change (Some "July" = Some (month_name r)) in Hname. congruence.
  - assert (Hdays : days_of_year 2024
                    = map (fun i => ymd (to_datetime 2024 1 1 + Z.of_nat i))
                          (seq 0 366))
      by (vm_compute; reflexivity).
    rewrite Hdays.
    apply Forall2_fmap, Forall_Forall2_diag, Forall_forall.
    intros i Hi. apply list_elem_of_In, in_seq in Hi.
    assert (Hlt : (i < 366)%nat) by lia.
    assert (Hdate : date (snd (row i)) = to_datetime 2024 1 1 + Z.of_nat i).
    { unfold row, frame_row. cbn [snd date].
      apply nth_lookup_Some, year_dates_lookup, Hlt. }
    destruct (Hrow i Hlt) as (Hm & Hrange & Hname & _ & Hseason).
    destruct (ymd (to_datetime 2024 1 1 + Z.of_nat i)) as [[y m] d] eqn:E.
    assert (Hmonth : month (snd (row i)) = m).
    { rewrite Hm, Hdate. unfold dt_month. rewrite E. reflexivity. }
    rewrite Hmonth in Hname, Hseason, Hrange.
    assert (Hback : forallb
                      (fun k => let t := to_datetime 2024 1 1 + Z.of_nat k in
                                let '(y', m', d') := ymd t in
                                to_datetime y' m' d' =? t)
                      (seq 0 366) = true) by (vm_compute; reflexivity).
    rewrite forallb_forall in Hback.
    specialize (Hback i ltac:(apply in_seq; lia)). cbv zeta in Hback.
    rewrite E in Hback. apply Z.eqb_eq in Hback.
    split; [congruence|]. split; [exact Hmonth|]. split; assumption.
  - intros d Hd.
    assert (Hi : (Z.to_nat (181 + d) < 366)%nat) by lia.
    exists (snd (row (Z.to_nat (181 + d)))).
    assert (Hdate : date (snd (row (Z.to_nat (181 + d))))
                    = to_datetime 2024 7 d).
    { unfold row, frame_row. cbn [snd date].
      rewrite (nth_lookup_Some _ _ _ _ (year_dates_lookup _ Hi)),
        july_day_number.
      lia. }
    assert (Hmonth : dt_month (date (snd (row (Z.to_nat (181 + d))))) = 7)
      by (rewrite Hdate; apply july_days_month, Hd).
    split; [|split; [exact Hdate|]].
    + rewrite list_lookup_fmap, (lookup_seq_lt 0 366 _ Hi). reflexivity.
    + unfold row, frame_row in Hmonth |- *.
      cbn [snd date month month_name season] in Hmonth |- *.
      unfold dt_month_name. rewrite Hmonth. repeat split; reflexivity.
Qed.

Lemma generated_calendar_columns_witness :
  1 <= 1 <= 31
  /\ exists df r,
       generate_weather_data sample_rng = Returned df
       /\ df !! 182%nat = Some (182%nat, r)
       /\ date r = to_datetime 2024 7 1
       /\ month r = 7
       /\ month_name r = "July"
       /\ season r = "Summer".
Proof.
  split; [lia|].
  destruct (generated_calendar_columns sample_rng)
    as (df & Hgen & _ & _ & _ & Hjuly).
  destruct (Hjuly 1 ltac:(lia)) as (r & Hrow & Hdate & Hm & Hname & Hs).
  exists df, r. split; [exact Hgen|]. split; [exact Hrow|]. auto.
Defined.

(** ** The seasonal curve of the temperature *)

Section BaseTemperature.
Local Open Scope R_scope.

Lemma sin_angle_lt_peak (x : R) :
  0 <= x <= 365 -> x <= 90 \/ 92 <= x ->
  sin (x / 365 * 2 * PI) < sin (91 / 365 * 2 * PI).
Proof.
  intros Hx Hcase. pose proof PI_RGT_0 as Hpi.
  assert (Hpeak : - (PI / 2) <= 91 / 365 * 2 * PI <= PI / 2) by (split; lra).
  destruct Hcase as [Hlo|Hhi].
  - apply sin_increasing_1; try tauto; nra.
  - destruct (Rle_dec x (1095 / 4)) as [Hmid|Hlate].
    + rewrite <- (sin_PI_x (x / 365 * 2 * PI)).
      apply sin_increasing_1; try tauto; nra.
    + replace (sin (x / 365 * 2 * PI))
        with (sin (x / 365 * 2 * PI - 2 * PI)).
      * apply sin_increasing_1; try tauto; nra.
      * rewrite <- (sin_period (x / 365 * 2 * PI - 2 * PI) 1).
        f_equal. simpl. lra.
Qed.

Lemma base_temp_peak (i : nat) :
  (i < 366)%nat -> i <> 91%nat -> base_temp i < base_temp 91.
Proof.
  intros Hi Hne. unfold base_temp.
  assert (H91 : INR 91 = 91) by (rewrite INR_IZR_INZ; reflexivity).
  rewrite H91.
  assert (Hx : 0 <= INR i <= 365).
  { split; [apply pos_INR|].
    replace 365 with (INR 365) by (rewrite INR_IZR_INZ; reflexivity).
    apply le_INR. lia. }
  assert (Hcase : INR i <= 90 \/ 92 <= INR i).
  { destruct (le_lt_dec i 90) as [Hle|Hgt].
    - left. replace 90 with (INR 90) by (rewrite INR_IZR_INZ; reflexivity).
      apply le_INR, Hle.
    - right. replace 92 with (INR 92) by (rewrite INR_IZR_INZ; reflexivity).
      apply le_INR. lia. }
  pose proof (sin_angle_lt_peak (INR i) Hx Hcase). lra.
Qed.

Lemma mid_year_index (i : nat) : mid_year i -> (92 <= i <= 273)%nat.
Proof.
  intros (d & Hd & Hm).
  assert (Hi : (i < 366)%nat).
  { rewrite <- year_dates_length. eapply lookup_lt_Some, Hd. }
  assert (H : forallb
                (fun k => let m := dt_month (nth k year_dates 0%Z) in
                          implb ((m =? 6)%Z || (m =? 7)%Z)
                                ((92 <=? k)%nat && (k <=? 273)%nat))
                (seq 0 366) = true) by (vm_compute; reflexivity).
  rewrite forallb_forall in H. specialize (H i). cbv beta zeta in H.
  rewrite (nth_lookup_Some year_dates i 0%Z d Hd) in H.
  assert (Hk : implb ((dt_month d =? 6)%Z || (dt_month d =? 7)%Z)
                     ((92 <=? i)%nat && (i <=? 273)%nat) = true).
  { apply H, in_seq. lia. }
  destruct Hm as [Hm|Hm]; rewrite Hm in Hk; cbn [Z.eqb Pos.eqb orb implb] in Hk;
    apply andb_true_iff in Hk as [H1 H2];
    apply Nat.leb_le in H1; apply Nat.leb_le in H2; lia.
Qed.

(** C7, as stated: the curve is not warmest at mid-year.  No day of June or
    July carries the greatest base temperature of the year. *)
Lemma base_temp_not_warmest_mid_year :
  ~ (exists d, mid_year d
               /\ forall i, (i < 366)%nat -> base_temp i <= base_temp d).
Proof.
  intros (d & Hmid & Hmax). apply mid_year_index in Hmid.
  pose proof (base_temp_peak d ltac:(lia) ltac:(lia)) as Hlt.
  specialize (Hmax 91%nat ltac:(lia)). lra.
Qed.

(** C7, amended. Each day's temperature is 20 + 15 sin(2 pi day_index / 365)
    plus that day's draw of [np.random.normal(0, 3)]; the curve is greatest
    at day index 91, which is April 1. *)
Theorem generated_temperature_curve (rng : RandomState) :
  exists df,
    generate_weather_data rng = Returned df
    /\ (forall i, (i < 366)%nat ->
          exists r, df !! i = Some (i, r)
                    /\ temperature r
                       = 20 + 15 * sin (INR i / 365 * 2 * PI)
                         + normal rng 0 3 i)
    /\ (forall i, (i < 366)%nat -> i <> 91%nat ->
          20 + 15 * sin (INR i / 365 * 2 * PI)
          < 20 + 15 * sin (INR 91 / 365 * 2 * PI))
    /\ year_dates !! 91%nat = Some (to_datetime 2024 4 1).
Proof.
  destruct (generate_weather_data_returns rng) as (rains & _ & _ & Hgen).
  eexists. split; [exact Hgen|]. split; [|split].
  - intros i Hi.
    set (row := frame_row year_dates (temperatures rng 366)
                          (humidities rng 366) rains).
    exists (snd (row i)). split.
    + rewrite list_lookup_fmap, (lookup_seq_lt 0 366 i Hi).
      reflexivity.
    + unfold row, frame_row. cbn [snd temperature].
      apply temperatures_nth, Hi.
  - exact base_temp_peak.
  - reflexivity.
Qed.

End BaseTemperature.

(** ** Extreme days *)

Section ExtremeDays.
Local Open Scope R_scope.

Lemma first_max_label (s : Series) : forall l v,
  In (first_max l v s) (l :: map fst s).
Proof.
  induction s as [|[l' v'] s IH]; intros l v; simpl.
  - now left.
  - destruct (Rgtb v' v).
    + right. apply IH.
    + destruct (IH l v) as [H|H]; [now left | now right; right].
Qed.

Lemma first_min_label (s : Series) : forall l v,
  In (first_min l v s) (l :: map fst s).
Proof.
  induction s as [|[l' v'] s IH]; intros l v; simpl.
  - now left.
  - destruct (Rltb v' v).
    + right. apply IH.
    + destruct (IH l v) as [H|H]; [now left | now right; right].
Qed.

Lemma series_labels (f : WeatherRecord -> R) (df : DataFrame) :
  map fst (series f df) = map fst df.
Proof. unfold series. rewrite map_map. reflexivity. Qed.

Lemma loc_returns (df : DataFrame) (label : nat) :
  In label (map fst df) -> exists r, loc df label = Returned r.
Proof.
  induction df as [|[l r] df IH]; simpl; [tauto|].
  intros H. destruct (Nat.eqb_spec l label) as [E|E]; [eauto|].
  apply IH. destruct H; [contradiction | assumption].
Qed.

Lemma idxmax_loc_returns (f : WeatherRecord -> R) (df : DataFrame) :
  df <> [] -> exists r, (i ← idxmax (series f df); loc df i) = Returned r.
Proof.
  destruct df as [|[l r] df]; [congruence|]. intros _.
  change (series f ((l, r) :: df)) with ((l, f r) :: series f df).
  cbn [idxmax mbind outcome_bind].
  apply loc_returns.
  rewrite <- (series_labels f ((l, r) :: df)).
  apply (first_max_label (series f df)).
Qed.

Lemma idxmin_loc_returns (f : WeatherRecord -> R) (df : DataFrame) :
  df <> [] -> exists r, (i ← idxmin (series f df); loc df i) = Returned r.
Proof.
  destruct df as [|[l r] df]; [congruence|]. intros _.
  change (series f ((l, r) :: df)) with ((l, f r) :: series f df).
  cbn [idxmin mbind outcome_bind].
  apply loc_returns.
  rewrite <- (series_labels f ((l, r) :: df)).
  apply (first_min_label (series f df)).
Qed.

(** On a frame with at least one row the query returns its four rows. *)
Lemma get_extreme_days_returns (df : DataFrame) :
  df <> [] -> exists e, get_extreme_days df = Returned e.
Proof.
  intros Hne. unfold get_extreme_days.
  destruct (idxmax_loc_returns temperature df Hne) as (r1 & ->).
  destruct (idxmin_loc_returns temperature df Hne) as (r2 & ->).
  destruct (idxmax_loc_returns rainfall df Hne) as (r3 & ->).
  destruct (idxmax_loc_returns humidity df Hne) as (r4 & ->).
  cbn [mbind outcome_bind]. eauto.
Qed.

(** C1, as stated: on the empty subset the error raised is not an
    [EmptyDatasetError]. *)
Lemma extreme_days_empty_not_EmptyDatasetError :
  get_extreme_days [] <> Raised "EmptyDatasetError".
Proof. vm_compute. discriminate. Qed.

(** C1, amended. On the empty subset the extreme-days query raises a
    [ValueError], the error of [idxmax] on an empty column; it returns no
    value. *)
Theorem extreme_days_empty_raises_ValueError :
  get_extreme_days [] = Raised "ValueError"
  /\ raises (get_extreme_days [])
  /\ forall e, get_extreme_days [] <> Returned e.
Proof.
  split; [reflexivity|]. split.
  - exists "ValueError". reflexivity.
  - intros e. discriminate.
Qed.

End ExtremeDays.

(** ** The comfort index *)

Section ComfortIndex.
Local Open Scope R_scope.

Lemma comfort_index_values_length (df : DataFrame) :
  length (comfort_index_values df) = length df.
Proof.
  unfold comfort_index_values, np_add, column.
  rewrite length_zip_with, !length_map. lia.
Qed.

Lemma comfort_index_values_lookup (df : DataFrame) i l r :
  df !! i = Some (l, r) ->
  comfort_index_values df !! i
  = Some (Rabs (temperature r - 23) + Rmax 0 (humidity r - 60) / 10).
Proof.
  intros H. unfold comfort_index_values, np_add, column.
  rewrite lookup_zip_with, !list_lookup_fmap, H. reflexivity.
Qed.

(** What one call does to the store: the copy goes to a fresh reference and
    takes the new column; nothing else is written. *)
Lemma get_comfort_index_run (σ : store) (df : ref) (f : Frame) :
  σ !! df = Some f ->
  get_comfort_index df σ
  = Some (fresh (dom σ),
          <[fresh (dom σ) :=
              {| frame_rows := frame_rows f;
                 frame_comfort_index :=
                   Some (comfort_index_values (frame_rows f)) |}]> σ).
Proof.
  intros H.
  unfold get_comfort_index, mbind, St_bind, mret, St_ret, deref, df_copy,
    setitem_comfort_index.
  rewrite H. cbn beta iota. rewrite H. cbn beta iota zeta.
  rewrite lookup_insert_eq, insert_insert_eq. reflexivity.
Qed.

Lemma fresh_ref_unused (σ : store) : σ !! fresh (dom σ) = None.
Proof. apply not_elem_of_dom, is_fresh. Qed.

(** C5. The comfort index of every row is |temperature - 23| +
    max(0, humidity - 60) / 10: it is 0 at temperature 23 and humidity 60,
    and 12 at temperature 33 and humidity 80. *)
Theorem comfort_index_formula (σ : store) (df : ref) (f : Frame) :
  σ !! df = Some f ->
  exists df_comfort σ' values,
    get_comfort_index df σ = Some (df_comfort, σ')
    /\ σ' !! df_comfort
       = Some {| frame_rows := frame_rows f;
                 frame_comfort_index := Some values |}
    /\ length values = length (frame_rows f)
    /\ (forall i l r, frame_rows f !! i = Some (l, r) ->
          values !! i
          = Some (Rabs (temperature r - 23) + Rmax 0 (humidity r - 60) / 10))
    /\ (forall i l r, frame_rows f !! i = Some (l, r) ->
          temperature r = 23 -> humidity r = 60 -> values !! i = Some 0)
    /\ (forall i l r, frame_rows f !! i = Some (l, r) ->
          temperature r = 33 -> humidity r = 80 -> values !! i = Some 12).
Proof.
  intros H. eexists _, _, _.
  split; [apply (get_comfort_index_run σ df f H)|].
  split; [apply lookup_insert_eq|].
  split; [apply comfort_index_values_length|].
  split; [intros i l r; apply comfort_index_values_lookup|].
  split; intros i l r Hi Ht Hh;
    rewrite (comfort_index_values_lookup _ i l r Hi), Ht, Hh; f_equal.
  - replace (23 - 23) with 0 by lra. replace (60 - 60) with 0 by lra.
    rewrite Rabs_R0. unfold Rmax. destruct (Rle_dec 0 0); lra.
  - replace (33 - 23) with 10 by lra. replace (80 - 60) with 20 by lra.
    rewrite Rabs_pos_eq by lra.
    unfold Rmax. destruct (Rle_dec 0 20); lra.
Qed.

Lemma comfort_index_formula_witness :
  sample_store !! 0%nat
  = Some {| frame_rows := sample_frame; frame_comfort_index := None |}
  /\ exists df_comfort σ' values,
       get_comfort_index 0%nat sample_store = Some (df_comfort, σ')
       /\ σ' !! df_comfort
          = Some {| frame_rows := sample_frame;
                    frame_comfort_index := Some values |}
       /\ values !! 0%nat = Some 0
       /\ values !! 1%nat = Some 12.
Proof.
  split; [reflexivity|].
  destruct (comfort_index_formula sample_store 0%nat
              {| frame_rows := sample_frame; frame_comfort_index := None |}
              eq_refl)
    as (df_comfort & σ' & values & Hrun & Hnew & _ & _ & H0 & H12).
  exists df_comfort, σ', values.
  split; [exact Hrun|]. split; [exact Hnew|]. split.
  - apply (H0 0%nat 0%nat (sample_row (to_datetime 2024 1 1) 23 60 0));
      reflexivity.
  - apply (H12 1%nat 1%nat (sample_row (to_datetime 2024 1 2) 33 80 0));
      reflexivity.
Defined.

(** C9. The call returns a reference to a new frame, the copy with the
    comfort index column; the frame passed in, and every other frame of the
    store, is left as it was. *)
Theorem get_comfort_index_leaves_source_unchanged
    (σ : store) (df : ref) (f : Frame) :
  σ !! df = Some f ->
  exists df_comfort σ',
    get_comfort_index df σ = Some (df_comfort, σ')
    /\ df_comfort <> df
    /\ σ !! df_comfort = None
    /\ σ' !! df = Some f
    /\ (forall r, r <> df_comfort -> σ' !! r = σ !! r)
    /\ σ' !! df_comfort
       = Some {| frame_rows := frame_rows f;
                 frame_comfort_index :=
                   Some (comfort_index_values (frame_rows f)) |}.
Proof.
  intros H. eexists _, _.
  split; [apply (get_comfort_index_run σ df f H)|].
  pose proof (fresh_ref_unused σ) as Hfresh.
  assert (Hne : fresh (dom σ) <> df) by congruence.
  split; [exact Hne|]. split; [exact Hfresh|]. split; [|split].
  - rewrite lookup_insert_ne by exact Hne. exact H.
  - intros r Hr. apply lookup_insert_ne. congruence.
  - apply lookup_insert_eq.
Qed.

Lemma get_comfort_index_leaves_source_unchanged_witness :
  sample_store !! 0%nat
  = Some {| frame_rows := sample_frame; frame_comfort_index := None |}
  /\ exists df_comfort σ',
       get_comfort_index 0%nat sample_store = Some (df_comfort, σ')
       /\ df_comfort <> 0%nat
       /\ σ' !! 0%nat
          = Some {| frame_rows := sample_frame; frame_comfort_index := None |}.
Proof.
  split; [reflexivity|].
  destruct (get_comfort_index_leaves_source_unchanged sample_store 0%nat
              {| frame_rows := sample_frame; frame_comfort_index := None |}
              eq_refl)
    as (df_comfort & σ' & Hrun & Hne & _ & Hsrc & _).
  exists df_comfort, σ'. auto.
Defined.

End ComfortIndex.

(** ** The filters *)

Lemma filter_keeps_forallb {A} (p q : A -> bool) (l : list A) :
  forallb p l = true -> forallb p (List.filter q l) = true.
Proof.
  induction l as [|x l IH]; simpl; [trivial|].
  intros H. apply andb_true_iff in H as [Hx Hl].
  destruct (q x); simpl; [rewrite Hx|]; auto.
Qed.

Lemma filter_twice {A} (p q : A -> bool) (l : list A) :
  List.filter q (List.filter p (List.filter q (List.filter p l)))
  = List.filter q (List.filter p l).
Proof.
  set (kept := List.filter q (List.filter p l)).
  assert (Hq : forallb q kept = true) by apply forallb_filter.
  assert (Hp : forallb p kept = true)
    by apply filter_keeps_forallb, forallb_filter.
  rewrite (forallb_filter_id p kept Hp). apply forallb_filter_id, Hq.
Qed.

Lemma filter_none {A} (p : A -> bool) (l : list A) :
  (forall x, p x = false) -> List.filter p l = [].
Proof.
  intros H. induction l as [|x l IH]; simpl; [reflexivity|].
  rewrite H. exact IH.
Qed.

(** C6. Filtering a filtered subset again, with the same date range and
    season, gives the same subset: same rows, same order. *)
Theorem apply_filters_idempotent
    (df : DataFrame) (date_range : list Timestamp) (season_filter : string) :
  (subset ← apply_filters df date_range season_filter;
   apply_filters subset date_range season_filter)
  = apply_filters df date_range season_filter.
Proof.
  unfold apply_filters. cbn [mbind outcome_bind]. f_equal.
  destruct (negb (String.eqb season_filter ALL_SEASONS));
    destruct date_range as [|start_date [|end_date [|]]];
    try reflexivity;
    try apply forallb_filter_id, forallb_filter.
  apply filter_twice.
Qed.

(** C8, as stated: a range whose start is after its end raises no
    [InvalidDateRangeError]. *)
Lemma inverted_range_not_InvalidDateRangeError :
  apply_filters sample_frame
    [to_datetime 2024 1 2; to_datetime 2024 1 1] ALL_SEASONS
  <> Raised "InvalidDateRangeError".
Proof. unfold apply_filters. discriminate. Qed.

(** C8, amended. For a range whose start is after its end the filter block
    raises nothing and returns the empty subset. *)
Theorem inverted_range_gives_empty_subset
    (df : DataFrame) (start_date end_date : Timestamp)
    (season_filter : string) :
  end_date < start_date ->
  apply_filters df [start_date; end_date] season_filter = Returned [].
Proof.
  intros Hlt. unfold apply_filters.
  rewrite (filter_none _ df) by (intros [l r]; simpl; lia).
  destruct (negb _); reflexivity.
Qed.

Lemma inverted_range_gives_empty_subset_witness :
  to_datetime 2024 1 1 < to_datetime 2024 1 2
  /\ apply_filters sample_frame
       [to_datetime 2024 1 2; to_datetime 2024 1 1] "Winter"
     = Returned [].
Proof.
  split; [reflexivity|].
  apply (inverted_range_gives_empty_subset sample_frame
           (to_datetime 2024 1 2) (to_datetime 2024 1 1) "Winter").
  reflexivity.
Defined.

(** ** Monthly averages *)

Lemma groupby_lookup (key : WeatherRecord -> string) (df : DataFrame)
    (k : string) :
  groupby key df !! k
  = match rows_of key k df with
    | [] => None
    | rows => Some rows
    end.
Proof.
  induction df as [|[l r] df IH]; [reflexivity|].
  change (groupby key ((l, r) :: df))
    with (<[key r := r :: default [] (groupby key df !! key r)]>
            (groupby key df)).
  change (rows_of key k ((l, r) :: df))
    with (if String.eqb (key r) k then r :: rows_of key k df
          else rows_of key k df).
  destruct (String.eqb_spec (key r) k) as [E|E].
  - subst k. rewrite lookup_insert_eq, IH.
    destruct (rows_of key (key r) df); reflexivity.
  - rewrite lookup_insert_ne by exact E. exact IH.
Qed.

Lemma rows_of_absent (key : WeatherRecord -> string) (k : string)
    (df : DataFrame) :
  (forall ir, In ir df -> key (snd ir) <> k) -> rows_of key k df = [].
Proof.
  intros H. induction df as [|[l r] df IH]; [reflexivity|].
  change (rows_of key k ((l, r) :: df))
    with (if String.eqb (key r) k then r :: rows_of key k df
          else rows_of key k df).
  destruct (String.eqb_spec (key r) k) as [E|E].
  - exfalso. apply (H (l, r)); [now left | exact E].
  - apply IH. intros ir Hir. apply H. now right.
Qed.

Lemma reindex_lookup (order : list string) (table : gmap string Averages)
    (i : nat) (k : string) :
  order !! i = Some k ->
  reindex order table !! i = Some (k, default nan_row (table !! k)).
Proof.
  intros H. unfold reindex. rewrite list_lookup_fmap, H. reflexivity.
Qed.

(** C10. Whatever the subset, the monthly averages have 12 rows, January to
    December in order; the row of a month the subset lacks holds NaN in
    every column, the row of a month it has holds that month's means. *)
Theorem monthly_averages_twelve_rows (df : DataFrame) :
  length (get_monthly_averages df) = 12%nat
  /\ map fst (get_monthly_averages df)
     = ["January"; "February"; "March"; "April"; "May"; "June";
        "July"; "August"; "September"; "October"; "November"; "December"]
  /\ (forall i k, month_order !! i = Some k ->
        (forall ir, In ir df -> month_name (snd ir) <> k) ->
        get_monthly_averages df !! i = Some (k, nan_row))
  /\ (forall i k, month_order !! i = Some k ->
        rows_of month_name k df <> [] ->
        get_monthly_averages df !! i
        = Some (k, group_mean (rows_of month_name k df))).
Proof.
  unfold get_monthly_averages. split; [|split; [|split]].
  - unfold reindex. rewrite length_map. reflexivity.
  - unfold reindex. rewrite map_map. reflexivity.
  - intros i k Hi Habs. rewrite (reindex_lookup _ _ i k Hi).
    rewrite lookup_fmap, groupby_lookup, (rows_of_absent _ _ _ Habs).
    reflexivity.
  - intros i k Hi Hrows. rewrite (reindex_lookup _ _ i k Hi).
    rewrite lookup_fmap, groupby_lookup.
    destruct (rows_of month_name k df); [congruence | reflexivity].
Qed.

Lemma monthly_averages_twelve_rows_witness :
  length (get_monthly_averages sample_frame) = 12%nat
  /\ get_monthly_averages sample_frame !! 1%nat = Some ("February", nan_row)
  /\ get_monthly_averages [] !! 11%nat = Some ("December", nan_row).
Proof.
  destruct (monthly_averages_twelve_rows sample_frame)
    as (Hlen & _ & Habs & _).
  destruct (monthly_averages_twelve_rows []) as (_ & _ & Hnone & _).
  split; [exact Hlen|]. split.
  - apply Habs; [reflexivity|].
    intros ir [<-|[<-|[]]]; vm_compute; discriminate.
  - apply Hnone; [reflexivity|]. intros ir [].
Defined.

(** ** The definitions on small inputs *)

Section Examples.
Local Open Scope R_scope.

Example to_datetime_epoch : to_datetime 1970 1 1 = 719163%Z.
Proof. reflexivity. Qed.

Example ymd_leap_day : ymd (to_datetime 2024 2 29) = (2024, 2, 29)%Z.
Proof. reflexivity. Qed.

Example ymd_after_leap_day : ymd (to_datetime 2024 2 29 + 1) = (2024, 3, 1)%Z.
Proof. reflexivity. Qed.

Example get_season_by_month :
  map get_season [1; 2; 3; 4; 5; 6; 7; 8; 9; 10; 11; 12]%Z
  = ["Winter"; "Winter"; "Spring"; "Spring"; "Spring"; "Summer"; "Summer";
     "Summer"; "Fall"; "Fall"; "Fall"; "Winter"].
Proof. reflexivity. Qed.

Example put_mask_in_order :
  put_mask [0; 0; 0; 0] [false; true; false; true] [5; 7] = [0; 5; 0; 7].
Proof. reflexivity. Qed.

Example np_setitem_mask_count_mismatch :
  np_setitem_mask [0; 0; 0] [true; true; false] [5; 7; 9]
  = Raised "ValueError".
Proof. reflexivity. Qed.

Lemma Rgtb_true (x y : R) : x > y -> Rgtb x y = true.
Proof. intros H. unfold Rgtb. destruct (Rgt_dec x y); [reflexivity | lra]. Qed.

Lemma Rgtb_false (x y : R) : x <= y -> Rgtb x y = false.
Proof. intros H. unfold Rgtb. destruct (Rgt_dec x y); [lra | reflexivity]. Qed.

(** Of two equal maxima, [idxmax] names the first. *)
Example idxmax_first_occurrence :
  idxmax [(3%nat, 1); (5%nat, 2); (7%nat, 2)] = Returned 5%nat.
Proof.
  cbn [idxmax first_max].
  rewrite (Rgtb_true 2 1) by lra. rewrite (Rgtb_false 2 2) by lra.
  reflexivity.
Qed.

Example apply_filters_full_range :
  apply_filters sample_frame
    [to_datetime 2024 1 1; to_datetime 2024 12 31] ALL_SEASONS
  = Returned sample_frame.
Proof. reflexivity. Qed.

Example apply_filters_other_season :
  apply_filters sample_frame [] "Summer" = Returned [].
Proof. reflexivity. Qed.

Example get_extreme_days_single_row :
  let r := sample_row (to_datetime 2024 1 1) 23 60 0 in
  get_extreme_days [(4%nat, r)]
  = Returned {| hottest := r; coldest := r; wettest := r; most_humid := r |}.
Proof. reflexivity. Qed.

End Examples.

(** * Further properties *)

Open Scope list_scope.

(** ** The filters on any frame *)

Lemma filter_sublist {A} (p : A -> bool) (l : list A) :
  sublist (List.filter p l) l.
Proof.
  induction l as [|x l IH]; simpl; [constructor|].
  destruct (p x); [apply sublist_skip | apply sublist_cons]; exact IH.
Qed.

Lemma apply_filters_returns
    (df : DataFrame) (date_range : list Timestamp) (season_filter : string) :
  exists subset, apply_filters df date_range season_filter = Returned subset.
Proof. unfold apply_filters. eauto. Qed.

(** What the filter block returns. *)
Lemma apply_filters_spec
    (df : DataFrame) (date_range : list Timestamp) (season_filter : string) :
  exists subset,
    apply_filters df date_range season_filter = Returned subset
    /\ sublist subset df
    /\ forall ir,
         In ir subset
         <-> In ir df
             /\ in_date_range date_range (date (snd ir))
             /\ season_selected season_filter (season (snd ir)).
Proof.
  unfold apply_filters, in_date_range, season_selected.
  eexists. split; [reflexivity|]. split.
  - destruct (negb _);
      destruct date_range as [|start_date [|end_date [|]]];
      try reflexivity; try apply filter_sublist;
      (etransitivity; [apply filter_sublist | apply filter_sublist]).
  - intros ir.
    destruct (String.eqb_spec season_filter ALL_SEASONS) as [E|E];
      cbn [negb];
      destruct date_range as [|start_date [|end_date [|]]];
      rewrite ?filter_In, ?andb_true_iff, ?Z.leb_le, ?String.eqb_eq;
      intuition congruence.
Qed.

(** X1. The filters never fail and only select: the subset is the frame with
    some rows left out, in the same order with the same labels, and a row is
    kept exactly when its date is in the range (when two dates are given)
    and its season is the one asked for (unless all seasons are). *)
Theorem apply_filters_selects
    (df : DataFrame) (date_range : list Timestamp) (season_filter : string) :
  exists subset,
    apply_filters df date_range season_filter = Returned subset
    /\ sublist subset df
    /\ forall ir,
         In ir subset
         <-> In ir df
             /\ in_date_range date_range (date (snd ir))
             /\ season_selected season_filter (season (snd ir)).
Proof. intros. eapply apply_filters_spec; eassumption. Qed.

(** Distinct labels stay distinct under the filters. *)
Lemma apply_filters_NoDup
    (df : DataFrame) (date_range : list Timestamp) (season_filter : string) :
  NoDup (map fst df) ->
  exists subset,
    apply_filters df date_range season_filter = Returned subset
    /\ NoDup (map fst subset).
Proof.
  intros Hnd.
  destruct (apply_filters_spec df date_range season_filter)
    as (subset & Hret & Hsub & _).
  exists subset. split; [exact Hret|].
  eapply sublist_NoDup; [exact Hnd | apply (fmap_sublist fst), Hsub].
Qed.

(** X2. A frame whose labels are distinct keeps distinct labels under the
    filters. *)
Theorem apply_filters_keeps_labels_distinct
    (df : DataFrame) (date_range : list Timestamp) (season_filter : string) :
  NoDup (map fst df) ->
  exists subset,
    apply_filters df date_range season_filter = Returned subset
    /\ NoDup (map fst subset).
Proof. intros. eapply apply_filters_NoDup; eassumption. Qed.

Lemma apply_filters_keeps_labels_distinct_witness :
  NoDup (map fst sample_frame)
  /\ exists subset,
       apply_filters sample_frame [] "Winter" = Returned subset
       /\ NoDup (map fst subset).
Proof.
  assert (H : NoDup (map fst sample_frame)).
  { apply (bool_decide_unpack _). reflexivity. }
  split; [exact H|].
  exact (apply_filters_keeps_labels_distinct sample_frame [] "Winter" H).
Defined.

(** ** The generated frame *)

Lemma year_dates_bounds :
  Forall (fun d => to_datetime 2024 1 1 <= d <= to_datetime 2024 12 31)
         year_dates.
Proof.
  apply Forall_forall. intros d Hd. apply list_elem_of_In in Hd.
  unfold year_dates, date_range in Hd.
  apply in_map_iff in Hd as (i & <- & Hi). apply in_seq in Hi.
  change (Z.to_nat (to_datetime 2024 12 31 - to_datetime 2024 1 1 + 1))
    with 366%nat in Hi.
  change (to_datetime 2024 12 31) with (to_datetime 2024 1 1 + 365). lia.
Qed.

Lemma frame_labels dates temps hums rains n :
  map fst (map (frame_row dates temps hums rains) (seq 0 n)) = seq 0 n.
Proof. rewrite map_map. apply map_id. Qed.

(** What every generated frame is known to satisfy. *)
Lemma generated_frame_facts (rng : RandomState) (df : DataFrame) :
  generate_weather_data rng = Returned df ->
  column date df = year_dates
  /\ map fst df = seq 0 366
  /\ Forall (fun ir => calendar_consistent (snd ir)) df.
Proof.
  intros Hdf.
  destruct (generate_weather_data_returns rng) as (rains & _ & _ & Hgen).
  assert (Hrows : df = map (frame_row year_dates (temperatures rng 366)
                                     (humidities rng 366) rains) (seq 0 366))
    by congruence.
  subst df. split; [|split].
  - exact (frame_dates year_dates (temperatures rng 366)
             (humidities rng 366) rains).
  - apply frame_labels.
  - apply Forall_forall. intros ir Hir.
    apply list_elem_of_In, in_map_iff in Hir as (i & <- & Hi).
    apply in_seq in Hi.
    apply frame_row_calendar; [exact year_dates_months|].
    rewrite year_dates_length. lia.
Qed.

Lemma generated_seasons (rng : RandomState) (df : DataFrame) :
  generate_weather_data rng = Returned df ->
  column season df = map (fun d => get_season (dt_month d)) year_dates.
Proof.
  intros Hdf.
  destruct (generated_frame_facts rng df Hdf) as (Hdates & _ & Hcal).
  rewrite <- Hdates. unfold column. rewrite map_map.
  apply map_ext_in. intros ir Hir.
  rewrite Forall_forall in Hcal.
  destruct (Hcal ir (proj2 (list_elem_of_In _ _) Hir))
    as (Hm & _ & _ & Hs & _).
  rewrite Hs, Hm. reflexivity.
Qed.

Lemma generate_weather_data_total (rng : RandomState) :
  exists df, generate_weather_data rng = Returned df.
Proof.
  destruct (generate_weather_data_returns rng) as (rains & _ & _ & Hgen).
  eauto.
Qed.

Lemma filter_all {A} (p : A -> bool) (l : list A) :
  Forall (fun x => p x = true) l -> List.filter p l = l.
Proof.
  intros H. apply forallb_filter_id, forallb_forall.
  intros x Hx. rewrite Forall_forall in H. apply H, list_elem_of_In, Hx.
Qed.

Lemma filter_length_map {A B} (f : A -> B) (p : B -> bool) (l : list A) :
  length (List.filter (fun x => p (f x)) l) = length (List.filter p (map f l)).
Proof.
  induction l as [|x l IH]; simpl; [reflexivity|].
  destruct (p (f x)); simpl; rewrite IH; reflexivity.
Qed.

(** ** The filters on the generated frame *)

(** X3. The whole year and all seasons select everything: on a generated
    frame the filters return the frame itself, same rows in the same
    order. *)
Theorem apply_filters_full_year_is_identity (rng : RandomState) :
  exists df,
    generate_weather_data rng = Returned df
    /\ apply_filters df [to_datetime 2024 1 1; to_datetime 2024 12 31]
         ALL_SEASONS
       = Returned df.
Proof.
  destruct (generate_weather_data_total rng) as (df & Hdf).
  exists df. split; [exact Hdf|].
  destruct (generated_frame_facts rng df Hdf) as (Hdates & _ & _).
  unfold apply_filters. cbn [String.eqb negb]. f_equal.
  change (negb (ALL_SEASONS =? ALL_SEASONS)%string) with false.
  cbv iota. apply filter_all.
  apply Forall_forall. intros ir Hir.
  pose proof year_dates_bounds as Hb. rewrite Forall_forall in Hb.
  assert (Hd : date (snd ir) ∈ year_dates).
  { rewrite <- Hdates. unfold column.
    apply list_elem_of_In,
      (in_map (fun ir : nat * WeatherRecord => date (snd ir))).
    apply list_elem_of_In, Hir. }
  specialize (Hb _ Hd). lia.
Qed.

(** X4. A season name outside the four known ones is not refused: on a
    generated frame it selects no row. *)
Theorem apply_filters_unknown_season_is_empty
    (rng : RandomState) (date_range : list Timestamp)
    (season_filter : string) :
  ~ In season_filter [ALL_SEASONS; "Winter"; "Spring"; "Summer"; "Fall"] ->
  exists df,
    generate_weather_data rng = Returned df
    /\ apply_filters df date_range season_filter = Returned [].
Proof.
  intros Hs.
  destruct (generate_weather_data_total rng) as (df & Hdf).
  exists df. split; [exact Hdf|].
  destruct (generated_frame_facts rng df Hdf) as (_ & _ & Hcal).
  destruct (apply_filters_spec df date_range season_filter)
    as (subset & Hret & _ & Hiff).
  rewrite Hret. f_equal.
  destruct subset as [|ir subset]; [reflexivity|]. exfalso.
  destruct (proj1 (Hiff ir) (or_introl eq_refl)) as (Hin & _ & Hsel).
  rewrite Forall_forall in Hcal.
  destruct (Hcal ir (proj2 (list_elem_of_In _ _) Hin))
    as (_ & _ & _ & _ & Hseason).
  apply Hs. simpl.
  destruct Hsel as [->|<-]; [now left|].
  unfold season_of in Hseason. intuition.
Qed.

Lemma apply_filters_unknown_season_is_empty_witness :
  ~ In "Autumn" [ALL_SEASONS; "Winter"; "Spring"; "Summer"; "Fall"]
  /\ exists df,
       generate_weather_data sample_rng = Returned df
       /\ apply_filters df [] "Autumn" = Returned [].
Proof.
  assert (H : ~ In "Autumn"
                [ALL_SEASONS; "Winter"; "Spring"; "Summer"; "Fall"]).
  { simpl. intros [H|[H|[H|[H|[H|[]]]]]]; discriminate. }
  split; [exact H|].
  exact (apply_filters_unknown_season_is_empty sample_rng [] "Autumn" H).
Defined.

(** X5. Whatever the draws, the season filter alone keeps 91 rows for
    Winter, 92 for Spring, 92 for Summer and 91 for Fall. *)
Theorem apply_filters_season_sizes (rng : RandomState) :
  exists df winter spring summer fall,
    generate_weather_data rng = Returned df
    /\ apply_filters df [] "Winter" = Returned winter
    /\ apply_filters df [] "Spring" = Returned spring
    /\ apply_filters df [] "Summer" = Returned summer
    /\ apply_filters df [] "Fall" = Returned fall
    /\ length winter = 91%nat /\ length spring = 92%nat
    /\ length summer = 92%nat /\ length fall = 91%nat.
Proof.
  destruct (generate_weather_data_total rng) as (df & Hdf).
  pose proof (generated_seasons rng df Hdf) as Hseasons.
  assert (Hlen : forall s,
             length (List.filter
                       (fun ir : nat * WeatherRecord =>
                          String.eqb (season (snd ir)) s) df)
             = length (List.filter (fun x => String.eqb x s)
                         (map (fun d => get_season (dt_month d)) year_dates))).
  { intros s. rewrite <- Hseasons. unfold column.
    apply (filter_length_map (fun ir : nat * WeatherRecord => season (snd ir))
             (fun x => String.eqb x s)). }
  eexists df, _, _, _, _. split; [exact Hdf|].
  unfold apply_filters. repeat (split; [reflexivity|]).
  cbn [String.eqb Ascii.eqb Bool.eqb negb ALL_SEASONS]. rewrite !Hlen.
  repeat split; vm_compute; reflexivity.
Qed.

(** ** Which rows the extreme days are *)

Section ExtremeRows.
Local Open Scope R_scope.

Lemma Rgtb_spec (x y : R) : reflect (x > y) (Rgtb x y).
Proof. unfold Rgtb. destruct (Rgt_dec x y); constructor; assumption. Qed.

Lemma Rltb_spec (x y : R) : reflect (x < y) (Rltb x y).
Proof. unfold Rltb. destruct (Rlt_dec x y); constructor; assumption. Qed.

(** Where [first_max] stops: nothing before is as great, nothing after is
    greater. *)
Lemma first_max_split (s : Series) : forall l v,
  exists pre vmax post,
    (l, v) :: s = pre ++ (first_max l v s, vmax) :: post
    /\ Forall (fun lv => snd lv < vmax) pre
    /\ Forall (fun lv => snd lv <= vmax) post.
Proof.
  induction s as [|[l' v'] s IH]; intros l v.
  - exists [], v, []. repeat split; constructor.
  - cbn [first_max]. destruct (Rgtb_spec v' v) as [Hgt|Hle].
    + destruct (IH l' v') as (pre & vmax & post & Heq & Hpre & Hpost).
      exists ((l, v) :: pre), vmax, post.
      split; [simpl; rewrite Heq; reflexivity|]. split; [|exact Hpost].
      constructor; [|exact Hpre]. simpl.
      destruct pre as [|[l1 v1] pre].
      * injection Heq as _ Hv _. lra.
      * injection Heq as _ Hv _. subst v1.
        inversion Hpre; subst. simpl in *. lra.
    + destruct (IH l v) as (pre & vmax & post & Heq & Hpre & Hpost).
      destruct pre as [|[l1 v1] pre].
      * injection Heq as Hl Hv Hs. subst vmax post.
        exists [], v, ((l', v') :: s). rewrite <- Hl.
        split; [reflexivity|]. split; [constructor|].
        constructor; [simpl; lra | exact Hpost].
      * injection Heq as Hl Hv Hs. subst l1 v1.
        exists ((l, v) :: (l', v') :: pre), vmax, post.
        split; [simpl; do 2 f_equal; exact Hs|]. split; [|exact Hpost].
        inversion Hpre; subst. simpl in *.
        constructor; [simpl; lra|]. constructor; [simpl; lra | assumption].
Qed.

Lemma first_min_split (s : Series) : forall l v,
  exists pre vmin post,
    (l, v) :: s = pre ++ (first_min l v s, vmin) :: post
    /\ Forall (fun lv => vmin < snd lv) pre
    /\ Forall (fun lv => vmin <= snd lv) post.
Proof.
  induction s as [|[l' v'] s IH]; intros l v.
  - exists [], v, []. repeat split; constructor.
  - cbn [first_min]. destruct (Rltb_spec v' v) as [Hlt|Hge].
    + destruct (IH l' v') as (pre & vmin & post & Heq & Hpre & Hpost).
      exists ((l, v) :: pre), vmin, post.
      split; [simpl; rewrite Heq; reflexivity|]. split; [|exact Hpost].
      constructor; [|exact Hpre]. simpl.
      destruct pre as [|[l1 v1] pre].
      * injection Heq as _ Hv _. lra.
      * injection Heq as _ Hv _. subst v1.
        inversion Hpre; subst. simpl in *. lra.
    + destruct (IH l v) as (pre & vmin & post & Heq & Hpre & Hpost).
      destruct pre as [|[l1 v1] pre].
      * injection Heq as Hl Hv Hs. subst vmin post.
        exists [], v, ((l', v') :: s). rewrite <- Hl.
        split; [reflexivity|]. split; [constructor|].
        constructor; [simpl; lra | exact Hpost].
      * injection Heq as Hl Hv Hs. subst l1 v1.
        exists ((l, v) :: (l', v') :: pre), vmin, post.
        split; [simpl; do 2 f_equal; exact Hs|]. split; [|exact Hpost].
        inversion Hpre; subst. simpl in *.
        constructor; [simpl; lra|]. constructor; [simpl; lra | assumption].
Qed.

(** With distinct labels, [loc] finds the row wherever it stands. *)
Lemma loc_middle (before after : DataFrame) (l : nat) (r : WeatherRecord) :
  NoDup (map fst (before ++ (l, r) :: after)) ->
  loc (before ++ (l, r) :: after) l = Returned r.
Proof.
  induction before as [|[l1 r1] before IH]; intros Hnd.
  - simpl. rewrite Nat.eqb_refl. reflexivity.
  - simpl in *. apply NoDup_cons in Hnd as [Hnotin Hnd].
    destruct (Nat.eqb_spec l1 l) as [E|E]; [|apply IH, Hnd].
    exfalso. apply Hnotin. subst l1.
    rewrite map_app. apply list_elem_of_In, in_or_app. right. now left.
Qed.

(** A split of a column is a split of the frame. *)
Lemma series_split (f : WeatherRecord -> R) (df : DataFrame)
    (pre post : Series) (l : nat) (v : R) :
  series f df = pre ++ (l, v) :: post ->
  exists before r after,
    df = before ++ (l, r) :: after
    /\ f r = v /\ series f before = pre /\ series f after = post.
Proof.
  unfold series. intros H.
  apply map_eq_app in H as (before & rest & -> & Hpre & Hrest).
  apply map_eq_cons in Hrest as ([l' r] & after & -> & Hhead & Hpost).
  injection Hhead as Hl Hv. simpl in Hl. subst l'.
  exists before, r, after. auto.
Qed.

Lemma series_Forall (f : WeatherRecord -> R) (P : R -> Prop)
    (df : DataFrame) :
  Forall (fun lv => P (snd lv)) (series f df) ->
  Forall (fun ir => P (f (snd ir))) df.
Proof.
  unfold series. intros H. apply Forall_forall. intros ir Hir.
  rewrite Forall_forall in H.
  apply (H (fst ir, f (snd ir))).
  apply list_elem_of_In.
  apply (in_map (fun ir : nat * WeatherRecord => (fst ir, f (snd ir)))).
  apply list_elem_of_In, Hir.
Qed.

Lemma idxmax_loc_first_greatest (f : WeatherRecord -> R) (df : DataFrame) :
  df <> [] -> NoDup (map fst df) ->
  exists r, (i ← idxmax (series f df); loc df i) = Returned r
            /\ first_greatest f df r.
Proof.
  destruct df as [|[l0 r0] df]; [congruence|]. intros _ Hnd.
  change (series f ((l0, r0) :: df)) with ((l0, f r0) :: series f df).
  cbn [idxmax mbind outcome_bind].
  destruct (first_max_split (series f df) l0 (f r0))
    as (pre & vmax & post & Heq & Hpre & Hpost).
  change ((l0, f r0) :: series f df) with (series f ((l0, r0) :: df)) in Heq.
  apply series_split in Heq
    as (before & r & after & Hdf & Hv & <- & <-).
  exists r. rewrite Hdf in Hnd |- *. split.
  - apply loc_middle, Hnd.
  - eexists before, _, after. split; [reflexivity|]. rewrite Hv.
    split;
      [ exact (series_Forall f (fun x => x < vmax) before Hpre)
      | exact (series_Forall f (fun x => x <= vmax) after Hpost) ].
Qed.

Lemma idxmin_loc_first_least (f : WeatherRecord -> R) (df : DataFrame) :
  df <> [] -> NoDup (map fst df) ->
  exists r, (i ← idxmin (series f df); loc df i) = Returned r
            /\ first_least f df r.
Proof.
  destruct df as [|[l0 r0] df]; [congruence|]. intros _ Hnd.
  change (series f ((l0, r0) :: df)) with ((l0, f r0) :: series f df).
  cbn [idxmin mbind outcome_bind].
  destruct (first_min_split (series f df) l0 (f r0))
    as (pre & vmin & post & Heq & Hpre & Hpost).
  change ((l0, f r0) :: series f df) with (series f ((l0, r0) :: df)) in Heq.
  apply series_split in Heq
    as (before & r & after & Hdf & Hv & <- & <-).
  exists r. rewrite Hdf in Hnd |- *. split.
  - apply loc_middle, Hnd.
  - eexists before, _, after. split; [reflexivity|]. rewrite Hv.
    split;
      [ exact (series_Forall f (fun x => vmin < x) before Hpre)
      | exact (series_Forall f (fun x => vmin <= x) after Hpost) ].
Qed.

(** Which rows the four extreme days are. *)
Lemma get_extreme_days_spec (df : DataFrame) :
  df <> [] -> NoDup (map fst df) ->
  exists e,
    get_extreme_days df = Returned e
    /\ first_greatest temperature df (hottest e)
    /\ first_least temperature df (coldest e)
    /\ first_greatest rainfall df (wettest e)
    /\ first_greatest humidity df (most_humid e).
Proof.
  intros Hne Hnd. unfold get_extreme_days.
  destruct (idxmax_loc_first_greatest temperature df Hne Hnd) as (r1 & -> & H1).
  destruct (idxmin_loc_first_least temperature df Hne Hnd) as (r2 & -> & H2).
  destruct (idxmax_loc_first_greatest rainfall df Hne Hnd) as (r3 & -> & H3).
  destruct (idxmax_loc_first_greatest humidity df Hne Hnd) as (r4 & -> & H4).
  cbn [mbind outcome_bind mret outcome_ret]. eexists. split; [reflexivity|].
  cbn [hottest coldest wettest most_humid]. auto.
Qed.

(** X6. On a frame with at least one row and distinct labels, the hottest
    day is the first row with the greatest temperature, the coldest the
    first with the least, the wettest the first with the greatest rainfall
    and the most humid the first with the greatest humidity. *)
Theorem get_extreme_days_first_extremes (df : DataFrame) :
  df <> [] -> NoDup (map fst df) ->
  exists e,
    get_extreme_days df = Returned e
    /\ first_greatest temperature df (hottest e)
    /\ first_least temperature df (coldest e)
    /\ first_greatest rainfall df (wettest e)
    /\ first_greatest humidity df (most_humid e).
Proof. intros. eapply get_extreme_days_spec; eassumption. Qed.

Lemma get_extreme_days_first_extremes_witness :
  sample_frame <> [] /\ NoDup (map fst sample_frame)
  /\ exists e,
       get_extreme_days sample_frame = Returned e
       /\ first_greatest temperature sample_frame (hottest e)
       /\ first_least temperature sample_frame (coldest e).
Proof.
  assert (Hne : sample_frame <> []) by discriminate.
  assert (Hnd : NoDup (map fst sample_frame))
    by (apply (bool_decide_unpack _); reflexivity).
  split; [exact Hne|]. split; [exact Hnd|].
  destruct (get_extreme_days_first_extremes sample_frame Hne Hnd)
    as (e & He & Hhot & Hcold & _).
  exists e. auto.
Defined.

(** X7. The metrics step of the page fails exactly when the filters keep no
    row: then it raises the [ValueError] of the extreme days, otherwise it
    returns them. *)
Theorem filtered_extreme_days_fails_on_empty_subset
    (df : DataFrame) (date_range : list Timestamp) (season_filter : string) :
  exists subset,
    apply_filters df date_range season_filter = Returned subset
    /\ (subset = [] ->
        filtered_extreme_days df date_range season_filter
        = Raised "ValueError")
    /\ (subset <> [] ->
        exists e, filtered_extreme_days df date_range season_filter
                  = Returned e).
Proof.
  destruct (apply_filters_returns df date_range season_filter)
    as (subset & Hret).
  exists subset. split; [exact Hret|].
  unfold filtered_extreme_days. rewrite Hret. cbn [mbind outcome_bind].
  split.
  - intros ->. reflexivity.
  - apply get_extreme_days_returns.
Qed.

(** X8. A date range whose start is after its end makes the metrics step
    raise [ValueError], whatever the frame and the season. *)
Theorem filtered_extreme_days_inverted_range
    (df : DataFrame) (start_date end_date : Timestamp)
    (season_filter : string) :
  (end_date < start_date)%Z ->
  filtered_extreme_days df [start_date; end_date] season_filter
  = Raised "ValueError".
Proof.
  intros Hlt. unfold filtered_extreme_days.
  unfold apply_filters.
  rewrite (filter_none _ df) by (intros [l r]; simpl; lia).
  destruct (negb _); reflexivity.
Qed.

Lemma filtered_extreme_days_inverted_range_witness :
  (to_datetime 2024 6 1 < to_datetime 2024 6 30)%Z
  /\ filtered_extreme_days sample_frame
       [to_datetime 2024 6 30; to_datetime 2024 6 1] ALL_SEASONS
     = Raised "ValueError".
Proof.
  split; [reflexivity|].
  apply (filtered_extreme_days_inverted_range sample_frame
           (to_datetime 2024 6 30) (to_datetime 2024 6 1) ALL_SEASONS).
  reflexivity.
Defined.

End ExtremeRows.

(** X9. On a generated frame, whenever the filters keep a row, the metrics
    step returns the first extreme rows of the filtered subset. *)
Theorem filtered_extreme_days_of_generated
    (rng : RandomState) (date_range : list Timestamp)
    (season_filter : string) :
  exists df subset,
    generate_weather_data rng = Returned df
    /\ apply_filters df date_range season_filter = Returned subset
    /\ (subset <> [] ->
        exists e,
          filtered_extreme_days df date_range season_filter = Returned e
          /\ first_greatest temperature subset (hottest e)
          /\ first_least temperature subset (coldest e)
          /\ first_greatest rainfall subset (wettest e)
          /\ first_greatest humidity subset (most_humid e)).
Proof.
  destruct (generate_weather_data_total rng) as (df & Hdf).
  destruct (generated_frame_facts rng df Hdf) as (_ & Hlabels & _).
  assert (Hnd : NoDup (map fst df)) by (rewrite Hlabels; apply NoDup_seq).
  destruct (apply_filters_NoDup df date_range season_filter
              Hnd) as (subset & Hret & Hsub).
  exists df, subset. split; [exact Hdf|]. split; [exact Hret|].
  intros Hne. unfold filtered_extreme_days. rewrite Hret.
  cbn [mbind outcome_bind].
  apply get_extreme_days_spec; assumption.
Qed.

(** ** Rainy days *)

Section RainyDays.
Local Open Scope R_scope.

Lemma rainy_days_cons (l : nat) (r : WeatherRecord) (df : DataFrame) :
  get_rainy_days_count ((l, r) :: df)
  = ((if Rgtb (rainfall r) 0.1 then 1 else 0) + get_rainy_days_count df)%nat.
Proof.
  unfold get_rainy_days_count, np_sum, np_gt, column. simpl.
  destruct (Rgtb (rainfall r) 0.1); reflexivity.
Qed.

Lemma rainy_days_sublist (sub df : DataFrame) :
  sublist sub df ->
  (get_rainy_days_count sub <= get_rainy_days_count df)%nat.
Proof.
  induction 1 as [|[l r] s d _ IH|[l r] s d _ IH].
  - reflexivity.
  - rewrite !rainy_days_cons. lia.
  - rewrite rainy_days_cons. lia.
Qed.

(** X10. The count of rainy days is at most the number of rows, and it is 0
    exactly when no row has a rainfall above 0.1; a rainfall of exactly 0.1
    does not count. *)
Theorem rainy_days_count_bounds (df : DataFrame) :
  (get_rainy_days_count df <= length df)%nat
  /\ (get_rainy_days_count df = 0%nat
      <-> Forall (fun ir => rainfall (snd ir) <= 0.1) df).
Proof.
  induction df as [|[l r] df [IHle IHzero]].
  - split; [reflexivity|]. split; [constructor | reflexivity].
  - rewrite rainy_days_cons. cbn [length].
    destruct (Rgtb_spec (rainfall r) 0.1) as [Hgt|Hle].
    + split; [lia|]. split; [discriminate|].
      intros H. inversion H; subst. simpl in *. lra.
    + split; [lia|]. rewrite Nat.add_0_l, IHzero. split.
      * intros H. constructor; [simpl; lra | exact H].
      * intros H. inversion H; subst. assumption.
Qed.

(** X11. Filtering never adds rainy days: the count on the filtered subset
    is at most the count on the frame. *)
Theorem rainy_days_count_of_subset
    (df : DataFrame) (date_range : list Timestamp) (season_filter : string) :
  exists subset,
    apply_filters df date_range season_filter = Returned subset
    /\ (get_rainy_days_count subset <= get_rainy_days_count df)%nat.
Proof.
  destruct (apply_filters_spec df date_range season_filter)
    as (subset & Hret & Hsub & _).
  exists subset. split; [exact Hret|]. apply rainy_days_sublist, Hsub.
Qed.

End RainyDays.

(** ** Averages by month and by season *)

Section Averages.
Local Open Scope R_scope.

(** X12. Whatever the subset, the seasonal averages have 4 rows, Winter,
    Spring, Summer, Fall in that order; a season the subset lacks has NaN
    in every column, a season it has holds the means of its rows. *)
Theorem seasonal_averages_four_rows (df : DataFrame) :
  map fst (get_seasonal_averages df) = ["Winter"; "Spring"; "Summer"; "Fall"]
  /\ (forall i k, season_order !! i = Some k ->
        (forall ir, In ir df -> season (snd ir) <> k) ->
        get_seasonal_averages df !! i = Some (k, nan_row))
  /\ (forall i k, season_order !! i = Some k ->
        rows_of season k df <> [] ->
        get_seasonal_averages df !! i
        = Some (k, group_mean (rows_of season k df))).
Proof.
  unfold get_seasonal_averages. split; [|split].
  - unfold reindex. rewrite map_map. reflexivity.
  - intros i k Hi Habs. rewrite (reindex_lookup _ _ i k Hi).
    rewrite lookup_fmap, groupby_lookup, (rows_of_absent _ _ _ Habs).
    reflexivity.
  - intros i k Hi Hrows. rewrite (reindex_lookup _ _ i k Hi).
    rewrite lookup_fmap, groupby_lookup.
    destruct (rows_of season k df); [congruence | reflexivity].
Qed.

Lemma sum_bounds (lo hi : R) (l : list R) :
  Forall (fun x => lo <= x <= hi) l ->
  INR (length l) * lo <= fold_right Rplus 0 l <= INR (length l) * hi.
Proof.
  induction 1 as [|x l Hx _ IH].
  - simpl. lra.
  - cbn [fold_right]. change (length (x :: l)) with (S (length l)).
    rewrite S_INR. lra.
Qed.

Lemma mean_bounds (lo hi : R) (l : list R) :
  l <> [] -> Forall (fun x => lo <= x <= hi) l -> lo <= mean l <= hi.
Proof.
  intros Hne Hall. pose proof (sum_bounds lo hi l Hall) as Hsum.
  assert (Hn : 0 < INR (length l)).
  { destruct l; [congruence|]. apply lt_0_INR. simpl. lia. }
  assert (Hinv : 0 < / INR (length l)) by apply Rinv_0_lt_compat, Hn.
  unfold mean, Rdiv. split.
  - replace lo with (INR (length l) * lo * / INR (length l)) by (field; lra).
    apply Rmult_le_compat_r; lra.
  - replace hi with (INR (length l) * hi * / INR (length l)) by (field; lra).
    apply Rmult_le_compat_r; lra.
Qed.

Lemma rows_of_Forall (key : WeatherRecord -> string) (k : string)
    (P : WeatherRecord -> Prop) (df : DataFrame) :
  Forall (fun ir => P (snd ir)) df -> Forall P (rows_of key k df).
Proof.
  intros H. apply Forall_forall. intros r Hr.
  apply list_elem_of_In, filter_In in Hr as [Hr _].
  apply in_map_iff in Hr as (ir & <- & Hir).
  rewrite Forall_forall in H. apply H, list_elem_of_In, Hir.
Qed.

Lemma reindex_In (order : list string) (table : gmap string Averages)
    (k : string) (a : Averages) :
  In (k, a) (reindex order table) -> a = default nan_row (table !! k).
Proof.
  unfold reindex. intros H. apply in_map_iff in H as (k' & Heq & _).
  injection Heq as -> ->. reflexivity.
Qed.

(** The cells of a table of group means are NaN or means of rows of the
    frame. *)
Lemma averages_cell (key : WeatherRecord -> string) (order : list string)
    (df : DataFrame) (k : string) (a : Averages) :
  In (k, a) (reindex order (group_mean <$> groupby key df)) ->
  a = nan_row
  \/ (rows_of key k df <> [] /\ a = group_mean (rows_of key k df)).
Proof.
  intros H. apply reindex_In in H.
  rewrite lookup_fmap, groupby_lookup in H.
  destruct (rows_of key k df) as [|r rows]; [left | right]; subst a.
  - reflexivity.
  - split; [discriminate | reflexivity].
Qed.

Lemma map_Forall {A} (f : A -> R) (P : R -> Prop) (l : list A) :
  Forall (fun x => P (f x)) l -> Forall P (map f l).
Proof. intros H. now apply Forall_fmap. Qed.

Lemma map_not_nil {A B} (f : A -> B) (l : list A) : l <> [] -> map f l <> [].
Proof. destruct l; [congruence | discriminate]. Qed.

End Averages.

(** ** More on the comfort index *)

Section ComfortFacts.
Local Open Scope R_scope.

Lemma comfort_index_values_map (df : DataFrame) :
  comfort_index_values df
  = map (fun ir => Rabs (temperature (snd ir) - 23)
                   + Rmax 0 (humidity (snd ir) - 60) / 10) df.
Proof.
  unfold comfort_index_values, np_add, column.
  induction df as [|ir df IH]; [reflexivity|].
  cbn [map zip_with]. f_equal. exact IH.
Qed.

Lemma comfort_value_facts (t h : R) :
  let c := Rabs (t - 23) + Rmax 0 (h - 60) / 10 in
  0 <= c
  /\ (c = 0 <-> t = 23 /\ h <= 60)
  /\ (h <= 100 -> c <= Rabs (t - 23) + 4).
Proof.
  intros c. subst c.
  pose proof (Rabs_pos (t - 23)) as Habs.
  assert (Hmax : 0 <= Rmax 0 (h - 60)) by apply Rmax_l.
  split; [lra|]. split; [split|].
  - intros H.
    assert (H0 : Rabs (t - 23) = 0) by lra.
    assert (H1 : Rmax 0 (h - 60) = 0) by lra.
    split.
    + destruct (Req_dec (t - 23) 0) as [E|E]; [lra|].
      apply Rabs_no_R0 in E. contradiction.
    + pose proof (Rmax_r 0 (h - 60)). lra.
  - intros [-> Hh]. rewrite Rmax_left by lra.
    replace (23 - 23) with 0 by lra. rewrite Rabs_R0. lra.
  - intros Hh.
    assert (Rmax 0 (h - 60) <= 40) by (apply Rmax_lub; lra). lra.
Qed.

(** X14. The comfort index of a row is never negative; it is 0 exactly when
    the temperature is 23 and the humidity at most 60; and with a humidity
    of at most 100 it exceeds the distance of the temperature from 23 by at
    most 4. *)
Theorem comfort_index_range (df : DataFrame) :
  Forall2 (fun ir c =>
             0 <= c
             /\ (c = 0 <-> temperature (snd ir) = 23 /\ humidity (snd ir) <= 60)
             /\ (humidity (snd ir) <= 100 ->
                 c <= Rabs (temperature (snd ir) - 23) + 4))
          df (comfort_index_values df).
Proof.
  rewrite comfort_index_values_map.
  induction df as [|ir df IH]; [constructor|].
  cbn [map]. constructor; [apply comfort_value_facts | exact IH].
Qed.

Lemma boolean_index_filter {A} (p : A -> bool) (l : list A) :
  boolean_index (map p l) l = List.filter p l.
Proof.
  induction l as [|x l IH]; [reflexivity|].
  simpl. destruct (p x); rewrite IH; reflexivity.
Qed.

Lemma boolean_index_map {A B} (p : A -> bool) (g : A -> B) (l : list A) :
  boolean_index (map p l) (map g l) = map g (List.filter p l).
Proof.
  induction l as [|x l IH]; [reflexivity|].
  simpl. destruct (p x); simpl; rewrite IH; reflexivity.
Qed.

Lemma frame_getitem_mask_comfort (p : nat * WeatherRecord -> bool)
    (df : DataFrame) :
  frame_getitem_mask
    {| frame_rows := df;
       frame_comfort_index := Some (comfort_index_values df) |}
    (map p df)
  = {| frame_rows := List.filter p df;
       frame_comfort_index := Some (comfort_index_values (List.filter p df)) |}.
Proof.
  unfold frame_getitem_mask. cbn [frame_rows frame_comfort_index fmap option_fmap option_map].
  rewrite boolean_index_filter, !comfort_index_values_map, boolean_index_map.
  reflexivity.
Qed.

(** X15. The filters and the comfort index commute: filtering the frame that
    carries the comfort index gives the rows that filtering the plain frame
    gives, and its column is the comfort index of those rows. *)
Theorem apply_filters_comfort_commutes
    (df : DataFrame) (date_range : list Timestamp) (season_filter : string) :
  exists subset,
    apply_filters df date_range season_filter = Returned subset
    /\ apply_filters_comfort
         {| frame_rows := df;
            frame_comfort_index := Some (comfort_index_values df) |}
         date_range season_filter
       = Returned
           {| frame_rows := subset;
              frame_comfort_index := Some (comfort_index_values subset) |}.
Proof.
  unfold apply_filters, apply_filters_comfort.
  eexists. split; [reflexivity|]. f_equal.
  destruct (negb (String.eqb season_filter ALL_SEASONS));
    destruct date_range as [|start_date [|end_date [|]]];
    rewrite ?frame_getitem_mask_comfort; cbn [frame_rows];
    rewrite ?frame_getitem_mask_comfort; reflexivity.
Qed.

(** X16. Calling [get_comfort_index] on its own result gives a third frame
    with the same rows and the same comfort index; the first two frames are
    left as they were. *)
Theorem get_comfort_index_twice (σ : gmap nat Frame) (df : nat) (f : Frame) :
  σ !! df = Some f ->
  exists r1 σ1 r2 σ2,
    get_comfort_index df σ = Some (r1, σ1)
    /\ get_comfort_index r1 σ1 = Some (r2, σ2)
    /\ r2 <> r1 /\ r2 <> df /\ r1 <> df
    /\ σ2 !! df = Some f
    /\ σ2 !! r1 = σ1 !! r1
    /\ σ2 !! r2 = σ1 !! r1.
Proof.
  intros H.
  pose proof (get_comfort_index_run σ df f H) as Hrun1.
  set (f1 := {| frame_rows := frame_rows f;
                frame_comfort_index :=
                  Some (comfort_index_values (frame_rows f)) |}) in *.
  set (r1 := fresh (dom σ)) in *.
  set (σ1 := <[r1 := f1]> σ) in *.
  assert (H1 : σ1 !! r1 = Some f1) by apply lookup_insert_eq.
  pose proof (get_comfort_index_run σ1 r1 f1 H1) as Hrun2.
  cbn [frame_rows f1] in Hrun2. fold f1 in Hrun2.
  set (r2 := fresh (dom σ1)) in *.
  assert (Hr1 : r1 <> df).
  { intros E. pose proof (fresh_ref_unused σ) as Hf. fold r1 in Hf.
    rewrite E in Hf. congruence. }
  assert (Hr21 : r2 <> r1).
  { intros E. pose proof (fresh_ref_unused σ1) as Hf. fold r2 in Hf.
    rewrite E in Hf. congruence. }
  assert (Hr2 : r2 <> df).
  { intros E. pose proof (fresh_ref_unused σ1) as Hf. fold r2 in Hf.
    rewrite E in Hf. unfold σ1 in Hf.
    rewrite lookup_insert_ne in Hf by exact Hr1. congruence. }
  exists r1, σ1, r2, (<[r2 := f1]> σ1).
  split; [exact Hrun1|]. split; [exact Hrun2|].
  split; [exact Hr21|]. split; [exact Hr2|]. split; [exact Hr1|].
  split; [|split].
  - rewrite lookup_insert_ne by exact Hr2. unfold σ1.
    rewrite lookup_insert_ne by exact Hr1. exact H.
  - rewrite lookup_insert_ne by exact Hr21. reflexivity.
  - rewrite lookup_insert_eq. symmetry. exact H1.
Qed.

Lemma get_comfort_index_twice_witness :
  sample_store !! 0%nat
  = Some {| frame_rows := sample_frame; frame_comfort_index := None |}
  /\ exists r1 σ1 r2 σ2,
       get_comfort_index 0%nat sample_store = Some (r1, σ1)
       /\ get_comfort_index r1 σ1 = Some (r2, σ2)
       /\ r2 <> r1
       /\ σ2 !! r2 = σ1 !! r1.
Proof.
  split; [reflexivity|].
  destruct (get_comfort_index_twice sample_store 0%nat
              {| frame_rows := sample_frame; frame_comfort_index := None |}
              eq_refl)
    as (r1 & σ1 & r2 & σ2 & H1 & H2 & Hne & _ & _ & _ & _ & Heq).
  exists r1, σ1, r2, σ2. auto.
Defined.

End ComfortFacts.

(** ** The comfort index by season *)

Section ComfortBySeason.
Local Open Scope R_scope.

Lemma value_groups_lookup (pairs : list (string * R)) (k : string) :
  foldr (fun sc (g : gmap string (list R)) =>
           <[fst sc := snd sc :: default [] (g !! fst sc)]> g) ∅ pairs !! k
  = match map snd (List.filter (fun sc => String.eqb (fst sc) k) pairs) with
    | [] => None
    | vs => Some vs
    end.
Proof.
  induction pairs as [|[s c] pairs IH]; [reflexivity|].
  cbn [foldr fst snd List.filter].
  destruct (String.eqb_spec s k) as [E|E].
  - subst k. rewrite lookup_insert_eq, IH. cbn [map snd].
    destruct (map snd _); reflexivity.
  - rewrite lookup_insert_ne by exact E. exact IH.
Qed.

Lemma mean_nonneg (l : list R) :
  l <> [] -> Forall (fun x => 0 <= x) l -> 0 <= mean l.
Proof.
  intros Hne Hall.
  assert (Hsum : 0 <= fold_right Rplus 0 l).
  { clear Hne. induction Hall; simpl; lra. }
  assert (Hn : 0 < INR (length l)).
  { destruct l; [congruence|]. apply lt_0_INR. simpl. lia. }
  unfold mean, Rdiv. apply Rmult_le_pos; [exact Hsum|].
  left. apply Rinv_0_lt_compat, Hn.
Qed.

Lemma filter_none_in {A} (p : A -> bool) (l : list A) :
  (forall x, In x l -> p x = false) -> List.filter p l = [].
Proof.
  induction l as [|x l IH]; intros H; [reflexivity|].
  simpl. rewrite (H x (or_introl eq_refl)). apply IH.
  intros y Hy. apply H. now right.
Qed.

Lemma season_comfort_pairs (df : DataFrame) :
  zip (column season df) (comfort_index_values df)
  = map (fun ir => (season (snd ir),
                    Rabs (temperature (snd ir) - 23)
                    + Rmax 0 (humidity (snd ir) - 60) / 10)) df.
Proof.
  rewrite comfort_index_values_map. unfold column.
  induction df as [|ir df IH]; [reflexivity|].
  cbn [map]. cbn [zip zip_with]. f_equal. exact IH.
Qed.

(** X17. The comfort index by season of a frame with its comfort index has
    4 rows, Winter, Spring, Summer, Fall in that order; the value of a season
    is NaN exactly when the frame has no row of that season, and is never
    negative otherwise.  A frame without the column raises [KeyError]. *)
Theorem comfort_by_season_rows (df : DataFrame) :
  comfort_by_season {| frame_rows := df; frame_comfort_index := None |}
  = Raised "KeyError"
  /\ exists table,
       comfort_by_season
         {| frame_rows := df;
            frame_comfort_index := Some (comfort_index_values df) |}
       = Returned table
       /\ map fst table = ["Winter"; "Spring"; "Summer"; "Fall"]
       /\ (forall k c, In (k, Some c) table -> 0 <= c)
       /\ (forall k, In k season_order ->
             (In (k, None) table
              <-> forall ir, In ir df -> season (snd ir) <> k)).
Proof.
  split; [reflexivity|].
  unfold comfort_by_season. cbn [frame_comfort_index frame_rows].
  eexists. split; [reflexivity|].
  rewrite season_comfort_pairs.
  set (comfort := fun ir : nat * WeatherRecord =>
                    Rabs (temperature (snd ir) - 23)
                    + Rmax 0 (humidity (snd ir) - 60) / 10).
  set (pairs := map (fun ir => (season (snd ir), comfort ir)) df).
  assert (Hvals : forall k,
             map snd (List.filter (fun sc => String.eqb (fst sc) k) pairs)
             = map comfort
                 (List.filter (fun ir => String.eqb (season (snd ir)) k) df)).
  { intros k. unfold pairs. clear pairs.
    induction df as [|ir df IH]; [reflexivity|].
    cbn [map List.filter fst].
    destruct (String.eqb (season (snd ir)) k); cbn [map snd];
      rewrite IH; reflexivity. }
  split; [rewrite map_map; reflexivity|]. split.
  - intros k c Hin. apply in_map_iff in Hin as (k' & Heq & _).
    injection Heq as -> Hc.
    rewrite value_groups_lookup, Hvals in Hc.
    destruct (List.filter _ df) as [|ir rows] eqn:Erows; [discriminate|].
    cbn [map fmap option_fmap option_map] in Hc. injection Hc as <-.
    apply mean_nonneg; [discriminate|].
    apply Forall_forall. intros x Hx.
    apply list_elem_of_In in Hx.
    change (In x (map comfort (ir :: rows))) in Hx.
    apply in_map_iff in Hx as (ir' & <- & _).
    apply (comfort_value_facts (temperature (snd ir')) (humidity (snd ir'))).
  - intros k Hk. split.
    + intros Hin ir Hir Hseason.
      apply in_map_iff in Hin as (k' & Heq & _).
      injection Heq as -> Hc.
      rewrite value_groups_lookup, Hvals in Hc.
      assert (Hrow : In ir (List.filter
                              (fun ir => String.eqb (season (snd ir)) k) df)).
      { apply filter_In. split; [exact Hir|]. now apply String.eqb_eq. }
      destruct (List.filter _ df); [contradiction | discriminate].
    + intros Habs. apply in_map_iff. exists k. split; [|exact Hk].
      f_equal. rewrite value_groups_lookup, Hvals.
      rewrite (filter_none_in _ df); [reflexivity|].
      intros ir Hir. apply String.eqb_neq. exact (Habs ir Hir).
Qed.

End ComfortBySeason.

(** ** Which days get rain *)

Section RainfallGates.
Local Open Scope R_scope.











End RainfallGates.

(** ** Summary statistics *)

Section SummaryStatistics.
Local Open Scope R_scope.

Lemma insert_sorted_perm (x : R) (l : list R) :
  Permutation (insert_sorted x l) (x :: l).
Proof.
  induction l as [|y l IH]; [reflexivity|].
  cbn [insert_sorted]. destruct (Rle_dec x y); [reflexivity|].
  rewrite IH. apply perm_swap.
Qed.

Lemma sort_values_perm (l : list R) : Permutation (sort_values l) l.
Proof.
  induction l as [|x l IH]; [reflexivity|].
  cbn [sort_values fold_right]. rewrite insert_sorted_perm.
  constructor. exact IH.
Qed.

Lemma insert_sorted_ascending (x : R) (l : list R) :
  ascending l -> ascending (insert_sorted x l).
Proof.
  induction l as [|y l IH]; intros Hl.
  - simpl. split; constructor.
  - cbn [insert_sorted]. destruct Hl as [Hy Hl].
    destruct (Rle_dec x y) as [Hxy|Hxy].
    + split; [|split; assumption].
      constructor; [exact Hxy|].
      eapply Forall_impl; [exact Hy|]. intros z Hz. simpl in Hz. lra.
    + split; [|apply IH, Hl].
      rewrite (insert_sorted_perm x l). constructor; [lra | exact Hy].
Qed.

Lemma sort_values_ascending (l : list R) : ascending (sort_values l).
Proof.
  induction l as [|x l IH]; [exact I|].
  apply insert_sorted_ascending, IH.
Qed.

Lemma sort_values_length (l : list R) : length (sort_values l) = length l.
Proof. apply Permutation_length, sort_values_perm. Qed.

Lemma ascending_nth (l : list R) : forall i j,
  ascending l -> (i <= j < length l)%nat -> nth i l 0 <= nth j l 0.
Proof.
  induction l as [|x l IH]; intros i j Hl Hij; [simpl in Hij; lia|].
  destruct Hl as [Hx Hl]. destruct j as [|j].
  - assert (i = 0%nat) by lia. subst i. lra.
  - destruct i as [|i].
    + cbn [nth]. rewrite Forall_forall in Hx.
      apply Hx, list_elem_of_In, nth_In. simpl in Hij. lia.
    + cbn [nth]. apply IH; [exact Hl | simpl in Hij; lia].
Qed.

(** Interpolated values grow with the position. *)
Lemma interpolate_mono (s : list R) (p q : nat) :
  ascending s -> (p <= q)%nat -> (q <= 4 * (length s - 1))%nat ->
  (0 < length s)%nat ->
  interpolate s p <= interpolate s q.
Proof.
  intros Hs Hpq Hq Hn. unfold interpolate.
  pose proof (Nat.div_mod_eq p 4) as Hp4.
  pose proof (Nat.div_mod_eq q 4) as Hq4.
  pose proof (Nat.mod_upper_bound p 4 ltac:(lia)) as Hpm.
  pose proof (Nat.mod_upper_bound q 4 ltac:(lia)) as Hqm.
  set (jp := (p / 4)%nat) in *. set (ap := (p mod 4)%nat) in *.
  set (jq := (q / 4)%nat) in *. set (aq := (q mod 4)%nat) in *.
  set (n := length s) in *.
  assert (Hjq : (jq <= n - 1)%nat) by lia.
  assert (Hgp : 0 <= INR ap / 4 <= 1).
  { pose proof (pos_INR ap). pose proof (le_INR ap 4 ltac:(lia)) as H4.
    replace (INR 4) with 4 in H4 by (simpl; lra). lra. }
  assert (Hgq : 0 <= INR aq / 4 <= 1).
  { pose proof (pos_INR aq). pose proof (le_INR aq 4 ltac:(lia)) as H4.
    replace (INR 4) with 4 in H4 by (simpl; lra). lra. }
  assert (Hstep : forall j, (j <= n - 1)%nat ->
             nth j s 0 <= nth (Nat.min (S j) (n - 1)) s 0).
  { intros j Hj. apply ascending_nth; [exact Hs | lia]. }
  pose proof (Hstep jp ltac:(lia)) as Hdp.
  pose proof (Hstep jq Hjq) as Hdq.
  destruct (Nat.eq_dec jp jq) as [E|E].
  - rewrite <- E in *.
    assert (Hle : INR ap <= INR aq) by (apply le_INR; lia).
    nra.
  - assert (Hlt : (jp < jq)%nat) by lia.
    assert (Hmid : nth (Nat.min (S jp) (n - 1)) s 0 <= nth jq s 0).
    { apply ascending_nth; [exact Hs | lia]. }
    nra.
Qed.

Lemma fold_left_Rmin_spec (l : list R) : forall x,
  In (fold_left Rmin l x) (x :: l)
  /\ Forall (fun y => fold_left Rmin l x <= y) (x :: l).
Proof.
  induction l as [|y l IH]; intros x.
  - simpl. split; [now left|]. constructor; [lra | constructor].
  - cbn [fold_left]. destruct (IH (Rmin x y)) as [Hin Hall].
    apply Forall_cons in Hall as [Hhead Hall]. split.
    + destruct Hin as [Hin|Hin]; [|now right; right].
      rewrite <- Hin. unfold Rmin. destruct (Rle_dec x y);
        [now left | now right; left].
    + pose proof (Rmin_l x y). pose proof (Rmin_r x y).
      constructor; [lra|]. constructor; [lra | exact Hall].
Qed.

Lemma fold_left_Rmax_spec (l : list R) : forall x,
  In (fold_left Rmax l x) (x :: l)
  /\ Forall (fun y => y <= fold_left Rmax l x) (x :: l).
Proof.
  induction l as [|y l IH]; intros x.
  - simpl. split; [now left|]. constructor; [lra | constructor].
  - cbn [fold_left]. destruct (IH (Rmax x y)) as [Hin Hall].
    apply Forall_cons in Hall as [Hhead Hall]. split.
    + destruct Hin as [Hin|Hin]; [|now right; right].
      rewrite <- Hin. unfold Rmax. destruct (Rle_dec x y);
        [now right; left | now left].
    + pose proof (Rmax_l x y). pose proof (Rmax_r x y).
      constructor; [lra|]. constructor; [lra | exact Hall].
Qed.

(** The order of the statistics of a column. *)
Lemma describe_order_bounds (l : list R) :
  l <> [] ->
  exists lo q1 q2 q3 hi m,
    stat_min (describe l) = Some lo
    /\ stat_q25 (describe l) = Some q1
    /\ stat_q50 (describe l) = Some q2
    /\ stat_q75 (describe l) = Some q3
    /\ stat_max (describe l) = Some hi
    /\ stat_mean (describe l) = Some m
    /\ stat_count (describe l) = INR (length l)
    /\ In lo l /\ In hi l
    /\ Forall (fun x => lo <= x <= hi) l
    /\ lo <= q1 /\ q1 <= q2 /\ q2 <= q3 /\ q3 <= hi
    /\ lo <= m <= hi.
Proof.
  intros Hne. destruct l as [|x l]; [congruence|].
  set (col := x :: l) in *.
  destruct (fold_left_Rmin_spec l x) as [Hlo_in Hlo].
  destruct (fold_left_Rmax_spec l x) as [Hhi_in Hhi].
  set (lo := fold_left Rmin l x) in *. set (hi := fold_left Rmax l x) in *.
  set (s := sort_values col).
  assert (Hlen : length s = length col) by apply sort_values_length.
  assert (Hasc : ascending s) by apply sort_values_ascending.
  assert (Hn : (0 < length s)%nat) by (rewrite Hlen; simpl; lia).
  assert (Hbound : Forall (fun y => lo <= y <= hi) col).
  { apply Forall_forall. intros y Hy.
    rewrite Forall_forall in Hlo, Hhi. split; [apply Hlo | apply Hhi]; exact Hy. }
  assert (Hsb : forall j, (j < length s)%nat -> lo <= nth j s 0 <= hi).
  { intros j Hj. rewrite Forall_forall in Hbound. apply Hbound.
    rewrite <- (sort_values_perm col). apply list_elem_of_In, nth_In, Hj. }
  assert (Hfirst : interpolate s 0 = nth 0 s 0).
  { unfold interpolate. simpl. lra. }
  assert (Hlast : interpolate s (4 * (length s - 1)) = nth (length s - 1) s 0).
  { unfold interpolate.
    replace (4 * (length s - 1))%nat with ((length s - 1) * 4)%nat by lia.
    rewrite Nat.div_mul, Nat.Div0.mod_mul by lia. simpl. lra. }
  assert (Hpos : forall k k', (k <= k')%nat ->
             ((length s - 1) * k <= (length s - 1) * k')%nat)
    by (intros k k' Hk; apply Nat.mul_le_mono_l, Hk).
  assert (Htop : forall k, (k <= 4)%nat ->
             ((length s - 1) * k <= 4 * (length s - 1))%nat)
    by (intros k Hk; rewrite (Nat.mul_comm 4); apply Hpos, Hk).
  assert (Hq : forall k, (k <= 4)%nat ->
             lo <= interpolate s ((length col - 1) * k) <= hi).
  { intros k Hk. rewrite <- Hlen. split.
    - apply Rle_trans with (interpolate s 0).
      + rewrite Hfirst. apply Hsb, Hn.
      + apply interpolate_mono;
          [exact Hasc | apply Nat.le_0_l | apply Htop, Hk | exact Hn].
    - apply Rle_trans with (interpolate s (4 * (length s - 1))).
      + apply interpolate_mono;
          [exact Hasc | apply Htop, Hk | apply Nat.le_refl | exact Hn].
      + rewrite Hlast. apply Hsb. lia. }
  assert (Hmono : forall k k', (k <= k')%nat -> (k' <= 4)%nat ->
             interpolate s ((length col - 1) * k)
             <= interpolate s ((length col - 1) * k')).
  { intros k k' Hk Hk'. rewrite <- Hlen.
    apply interpolate_mono;
      [exact Hasc | apply Hpos, Hk | apply Htop, Hk' | exact Hn]. }
  exists lo, (interpolate s ((length col - 1) * 1)),
    (interpolate s ((length col - 1) * 2)),
    (interpolate s ((length col - 1) * 3)), hi, (mean col).
  repeat (split; [reflexivity|]).
  split; [exact Hlo_in|]. split; [exact Hhi_in|]. split; [exact Hbound|].
  split; [apply (Hq 1%nat); lia|].
  split; [apply (Hmono 1%nat 2%nat); lia|].
  split; [apply (Hmono 2%nat 3%nat); lia|].
  split; [apply (Hq 3%nat); lia|].
  apply mean_bounds; [discriminate | exact Hbound].
Qed.

(** X19. On a column with at least one value, [describe] gives a minimum
    and a maximum that are values of the column and bound all of them, and
    min <= 25% <= 50% <= 75% <= max, with the count equal to the number of
    values. *)
Theorem describe_order (l : list R) :
  l <> [] ->
  exists lo q1 q2 q3 hi,
    stat_min (describe l) = Some lo
    /\ stat_q25 (describe l) = Some q1
    /\ stat_q50 (describe l) = Some q2
    /\ stat_q75 (describe l) = Some q3
    /\ stat_max (describe l) = Some hi
    /\ stat_count (describe l) = INR (length l)
    /\ In lo l /\ In hi l
    /\ Forall (fun x => lo <= x <= hi) l
    /\ lo <= q1 /\ q1 <= q2 /\ q2 <= q3 /\ q3 <= hi.
Proof.
  intros Hne.
  destruct (describe_order_bounds l Hne)
    as (lo & q1 & q2 & q3 & hi & m & H1 & H2 & H3 & H4 & H5 & _ & Hc & Hlo
        & Hhi & Hall & Ha & Hb & Hd & He & _).
  exists lo, q1, q2, q3, hi. repeat (split; [assumption|]). assumption.
Qed.

Lemma describe_order_witness :
  [3; 1; 2] <> []
  /\ exists lo q1 q2 q3 hi,
       stat_min (describe [3; 1; 2]) = Some lo
       /\ stat_q25 (describe [3; 1; 2]) = Some q1
       /\ stat_q50 (describe [3; 1; 2]) = Some q2
       /\ stat_q75 (describe [3; 1; 2]) = Some q3
       /\ stat_max (describe [3; 1; 2]) = Some hi
       /\ lo <= q1 /\ q1 <= q2 /\ q2 <= q3 /\ q3 <= hi.
Proof.
  split; [discriminate|].
  destruct (describe_order [3; 1; 2] ltac:(discriminate))
    as (lo & q1 & q2 & q3 & hi & H1 & H2 & H3 & H4 & H5 & _ & _ & _ & _
        & Ha & Hb & Hc & Hd).
  exists lo, q1, q2, q3, hi. repeat (split; [assumption|]). assumption.
Defined.

(** X20. The empty subset has a count of 0 and NaN in every other statistic
    of every column.  A subset of one row has a count of 1, NaN for the
    standard deviation, and the row's value for the mean, the minimum, the
    three quartiles and the maximum. *)
Theorem get_summary_stats_small_subsets :
  (forall d, In d [summary_temperature (get_summary_stats []);
                   summary_humidity (get_summary_stats []);
                   summary_rainfall (get_summary_stats [])] ->
     d = {| stat_count := 0; stat_mean := None; stat_std := None;
            stat_min := None; stat_q25 := None; stat_q50 := None;
            stat_q75 := None; stat_max := None |})
  /\ forall (l : nat) (r : WeatherRecord),
       let one := fun x => {| stat_count := 1; stat_mean := Some x;
                              stat_std := None; stat_min := Some x;
                              stat_q25 := Some x; stat_q50 := Some x;
                              stat_q75 := Some x; stat_max := Some x |} in
       get_summary_stats [(l, r)]
       = {| summary_temperature := one (temperature r);
            summary_humidity := one (humidity r);
            summary_rainfall := one (rainfall r) |}.
Proof.
  split.
  - intros d [<-|[<-|[<-|[]]]]; reflexivity.
  - intros l r one.
    assert (H : forall x, describe [x] = one x).
    { intros x. unfold describe, one. cbn [length INR].
      unfold series_mean, series_std, series_min, series_max, quantile4,
        mean, interpolate.
      cbn [length sort_values fold_right insert_sorted fold_left INR
           Nat.sub Nat.mul Nat.div Nat.modulo Nat.divmod fst snd nth Nat.min].
      f_equal; f_equal; simpl; field. }
    unfold get_summary_stats, column. cbn [map snd]. rewrite !H. reflexivity.
Qed.

End SummaryStatistics.

(** ** The standard deviation *)

Section StandardDeviation.
Local Open Scope R_scope.

Lemma sum_squares_nonneg (m : R) (l : list R) :
  0 <= fold_right Rplus 0 (map (fun x => (x - m) * (x - m)) l).
Proof.
  induction l as [|x l IH]; simpl; [lra|].
  pose proof (Rle_0_sqr (x - m)) as Hsq. unfold Rsqr in Hsq. lra.
Qed.

Lemma sum_squares_zero (m : R) (l : list R) :
  fold_right Rplus 0 (map (fun x => (x - m) * (x - m)) l) = 0
  <-> Forall (fun x => x = m) l.
Proof.
  induction l as [|x l IH]; simpl.
  - split; [constructor | reflexivity].
  - pose proof (sum_squares_nonneg m l) as Hpos. split.
    + intros H.
      pose proof (Rle_0_sqr (x - m)) as Hsq. unfold Rsqr in Hsq.
      assert (E : (x - m) * (x - m) = 0) by lra.
      constructor; [|apply IH; lra].
      apply Rmult_integral in E. destruct E; lra.
    + intros H. inversion H; subst. apply IH in H3. rewrite H3. lra.
Qed.

Lemma mean_constant (c : R) (l : list R) :
  l <> [] -> Forall (fun x => x = c) l -> mean l = c.
Proof.
  intros Hne Hall.
  assert (H : c <= mean l <= c).
  { apply mean_bounds; [exact Hne|].
    eapply Forall_impl; [exact Hall|]. intros x Hx. simpl in Hx. lra. }
  lra.
Qed.

End StandardDeviation.

(** ** Statistics of the generated data *)

Section GeneratedStatistics.
Local Open Scope R_scope.

(** The ranges of the generated columns, for use below. *)
Lemma generated_ranges (rng : RandomState) (df : DataFrame) :
  exponential_nonneg rng ->
  generate_weather_data rng = Returned df ->
  Forall (fun ir => 20 <= humidity (snd ir) <= 100) df
  /\ Forall (fun ir => 0 <= rainfall (snd ir)) df.
Proof.
  intros Hexp Hdf.
  destruct (rainfalls_returns rng year_dates) as (rains & Hr & Hlen & Hpos).
  destruct (generate_weather_data_returns rng) as (rains' & Hr' & _ & Hgen).
  assert (rains' = rains) by congruence. subst rains'.
  assert (Hrows : df = map (frame_row year_dates (temperatures rng 366)
                                     (humidities rng 366) rains) (seq 0 366))
    by congruence.
  subst df. specialize (Hpos Hexp).
  split; apply Forall_forall; intros ir Hir;
    apply list_elem_of_In, in_map_iff in Hir as (i & <- & Hi);
    apply in_seq in Hi; unfold frame_row; cbn [snd humidity rainfall].
  - pose proof (humidities_bounds rng 366) as Hb.
    rewrite Forall_forall in Hb. apply Hb, list_elem_of_In, nth_In.
    rewrite humidities_length. lia.
  - rewrite Forall_forall in Hpos. apply Hpos, list_elem_of_In, nth_In.
    rewrite Hlen, year_dates_length. lia.
Qed.

Lemma sublist_Forall {A} (P : A -> Prop) (sub l : list A) :
  sublist sub l -> Forall P l -> Forall P sub.
Proof.
  induction 1 as [|x s k _ IH|x s k _ IH]; intros Hall.
  - constructor.
  - inversion Hall; subst. constructor; auto.
  - inversion Hall; subst. auto.
Qed.

(** X22. Whatever the draws and the filters, if the filtered subset of the
    generated data has a row, its summary statistics give a humidity whose
    minimum, quartiles, mean and maximum all lie in [20, 100], and a
    rainfall whose minimum is at least 0. *)
Theorem summary_stats_of_generated_in_range
    (rng : RandomState) (date_range : list Timestamp)
    (season_filter : string) :
  exponential_nonneg rng ->
  exists df subset,
    generate_weather_data rng = Returned df
    /\ apply_filters df date_range season_filter = Returned subset
    /\ (subset <> [] ->
        let h := summary_humidity (get_summary_stats subset) in
        let r := summary_rainfall (get_summary_stats subset) in
        (forall s x,
           In s [stat_min h; stat_q25 h; stat_q50 h; stat_q75 h; stat_max h;
                 stat_mean h] ->
           s = Some x -> 20 <= x <= 100)
        /\ exists lo, stat_min r = Some lo /\ 0 <= lo).
Proof.
  intros Hexp.
  destruct (generate_weather_data_total rng) as (df & Hdf).
  destruct (generated_ranges rng df Hexp Hdf) as (Hhum & Hrain).
  destruct (apply_filters_spec df date_range season_filter)
    as (subset & Hret & Hsub & _).
  exists df, subset. split; [exact Hdf|]. split; [exact Hret|].
  intros Hne h r. subst h r. unfold get_summary_stats.
  cbn [summary_humidity summary_rainfall].
  pose proof (sublist_Forall _ _ _ Hsub Hhum) as Hh.
  pose proof (sublist_Forall _ _ _ Hsub Hrain) as Hr.
  assert (Hcolne : forall f : WeatherRecord -> R, column f subset <> [])
    by (intros f; apply map_not_nil, Hne).
  assert (Hcol : forall (f : WeatherRecord -> R) (P : R -> Prop),
             Forall (fun ir => P (f (snd ir))) subset ->
             forall x, In x (column f subset) -> P x).
  { intros f P Hall x Hx. unfold column in Hx.
    apply in_map_iff in Hx as (ir & <- & Hir).
    rewrite Forall_forall in Hall. apply Hall, list_elem_of_In, Hir. }
  split.
  - destruct (describe_order_bounds (column humidity subset)
                (Hcolne humidity))
      as (lo & q1 & q2 & q3 & hi & m & H1 & H2 & H3 & H4 & H5 & H6
          & _ & Hlo & Hhi & _ & Ha & Hb & Hc & Hd & Hm).
    pose proof (Hcol humidity (fun x => 20 <= x <= 100) Hh lo Hlo) as Blo.
    pose proof (Hcol humidity (fun x => 20 <= x <= 100) Hh hi Hhi) as Bhi.
    simpl in Blo, Bhi.
    intros s x Hs Hx. subst s.
    destruct Hs as [E|[E|[E|[E|[E|[E|[]]]]]]];
      rewrite ?H1, ?H2, ?H3, ?H4, ?H5, ?H6 in E; injection E as <-; lra.
  - destruct (describe_order_bounds (column rainfall subset)
                (Hcolne rainfall))
      as (lo & q1 & q2 & q3 & hi & m & H1 & _ & _ & _ & _ & _
          & _ & Hlo & _).
    exists lo. split; [exact H1|].
    exact (Hcol rainfall (fun x => 0 <= x) Hr lo Hlo).
Qed.

Lemma summary_stats_of_generated_in_range_witness :
  exponential_nonneg sample_rng
  /\ exists df subset,
       generate_weather_data sample_rng = Returned df
       /\ apply_filters df [] "Summer" = Returned subset.
Proof.
  assert (H : exponential_nonneg sample_rng)
    by (intros scale k Hscale; exact Hscale).
  split; [exact H|].
  destruct (summary_stats_of_generated_in_range sample_rng [] "Summer" H)
    as (df & subset & Hdf & Hret & _).
  exists df, subset. auto.
Defined.

End GeneratedStatistics.

(** ** Correlations *)

Section Correlations.
Local Open Scope R_scope.

Lemma dot_comm (a : list R) : forall b, dot a b = dot b a.
Proof.
  unfold dot. induction a as [|x a IH]; intros [|y b]; try reflexivity.
  cbn [zip_with fold_right]. rewrite IH. lra.
Qed.

Lemma dot_self_nonneg (a : list R) : 0 <= dot a a.
Proof.
  unfold dot. induction a as [|x a IH]; cbn [zip_with fold_right]; [lra|].
  pose proof (Rle_0_sqr x) as Hsq. unfold Rsqr in Hsq. lra.
Qed.



Lemma dot_deviations (l : list R) :
  dot (deviations l) (deviations l)
  = fold_right Rplus 0 (map (fun x => (x - mean l) * (x - mean l)) l).
Proof.
  unfold dot, deviations. generalize (mean l). intros m.
  induction l as [|x l IH]; [reflexivity|].
  cbn [map zip_with fold_right]. rewrite IH. reflexivity.
Qed.

Lemma deviations_constant (l : list R) :
  (forall a b, In a l -> In b l -> a = b) ->
  dot (deviations l) (deviations l) = 0.
Proof.
  intros Heq. rewrite dot_deviations. apply sum_squares_zero.
  destruct l as [|c l]; [constructor|].
  assert (Hc : Forall (fun x => x = c) (c :: l)).
  { apply Forall_forall. intros x Hx. apply Heq;
      [apply list_elem_of_In, Hx | now left]. }
  rewrite (mean_constant c (c :: l) ltac:(discriminate) Hc). exact Hc.
Qed.

Lemma deviations_varying (l : list R) (a b : R) :
  In a l -> In b l -> a <> b -> 0 < dot (deviations l) (deviations l).
Proof.
  intros Ha Hb Hab.
  pose proof (dot_self_nonneg (deviations l)) as Hpos.
  destruct (Req_dec (dot (deviations l) (deviations l)) 0) as [E|E]; [|lra].
  exfalso. rewrite dot_deviations in E. apply sum_squares_zero in E.
  rewrite Forall_forall in E. apply Hab.
  rewrite (E a), (E b); [reflexivity | |]; apply list_elem_of_In; assumption.
Qed.

Lemma pearson_sym (x y : list R) : pearson x y = pearson y x.
Proof.
  assert (Hnil : forall l, pearson l [] = None).
  { intros [|a l]; [reflexivity|]. unfold pearson.
    change (deviations []) with (@nil R). change (dot [] []) with 0.
    rewrite Rmult_0_r, sqrt_0.
    destruct (Req_dec_T 0 0); [reflexivity | congruence]. }
  destruct x as [|a x]; [symmetry; apply Hnil|].
  destruct y as [|b y]; [apply Hnil|].
  unfold pearson.
  rewrite (Rmult_comm (dot (deviations (b :: y)) (deviations (b :: y)))
             (dot (deviations (a :: x)) (deviations (a :: x)))),
    (dot_comm (deviations (b :: y)) (deviations (a :: x))).
  reflexivity.
Qed.

Lemma pearson_constant (x y : list R) :
  (forall a b, In a x -> In b x -> a = b) -> pearson x y = None.
Proof.
  intros Heq. destruct x as [|a x]; [reflexivity|]. unfold pearson.
  rewrite (deviations_constant _ Heq), Rmult_0_l, sqrt_0.
  destruct (Req_dec_T 0 0); [reflexivity | congruence].
Qed.

Lemma pearson_self (x : list R) (a b : R) :
  In a x -> In b x -> a <> b -> pearson x x = Some 1.
Proof.
  intros Ha Hb Hab. pose proof (deviations_varying x a b Ha Hb Hab) as Hpos.
  destruct x as [|c x]; [contradiction|]. unfold pearson.
  set (S := dot (deviations (c :: x)) (deviations (c :: x))) in *.
  rewrite sqrt_square by lra.
  destruct (Req_dec_T S 0); [lra|]. f_equal. field. lra.
Qed.


(** The cell of two metrics. *)
Lemma correlation_cell (df : DataFrame) (i j : nat)
    (f g : WeatherRecord -> R) :
  metrics !! i = Some f -> metrics !! j = Some g ->
  (get_correlation_data df !! i ≫= fun row => row !! j)
  = Some (pearson (column f df) (column g df)).
Proof.
  intros Hi Hj. unfold get_correlation_data.
  rewrite list_lookup_fmap, Hi. cbn [fmap option_fmap option_map mbind option_bind].
  rewrite list_lookup_fmap, Hj. reflexivity.
Qed.


(** X24. On the diagonal of the correlation matrix the cell of a column with
    two different values is 1.  A column whose values are all equal, as the
    rainfall of a subset without rain or any column of a subset of one row,
    has NaN in its whole row and its whole column, the diagonal included. *)
Theorem correlation_matrix_diagonal (df : DataFrame) (i : nat)
    (f : WeatherRecord -> R) :
  metrics !! i = Some f ->
  ((exists a b, In a (column f df) /\ In b (column f df) /\ a <> b) ->
   (get_correlation_data df !! i ≫= fun row => row !! i) = Some (Some 1))
  /\ ((forall a b, In a (column f df) -> In b (column f df) -> a = b) ->
      forall j, (j < 3)%nat ->
        (get_correlation_data df !! i ≫= fun row => row !! j) = Some None
        /\ (get_correlation_data df !! j ≫= fun row => row !! i) = Some None).
Proof.
  intros Hi. split.
  - intros (a & b & Ha & Hb & Hab).
    rewrite (correlation_cell df i i f f Hi Hi). f_equal.
    exact (pearson_self _ a b Ha Hb Hab).
  - intros Hconst j Hj.
    destruct (metrics !! j) as [g|] eqn:Hg.
    + rewrite (correlation_cell df i j f g Hi Hg),
        (correlation_cell df j i g f Hg Hi).
      rewrite (pearson_sym (column g df)), (pearson_constant _ _ Hconst).
      split; reflexivity.
    + apply lookup_ge_None in Hg. change (length metrics) with 3%nat in Hg.
      lia.
Qed.

Lemma correlation_matrix_diagonal_witness :
  metrics !! 2%nat = Some rainfall
  /\ (get_correlation_data sample_frame !! 2%nat ≫= fun row => row !! 2%nat)
     = Some None
  /\ (get_correlation_data sample_frame !! 0%nat ≫= fun row => row !! 0%nat)
     = Some (Some 1).
Proof.
  split; [reflexivity|]. split.
  - destruct (correlation_matrix_diagonal sample_frame 2%nat rainfall eq_refl)
      as [_ Hnan].
    apply (Hnan ltac:(intros a b [<-|[<-|[]]] [<-|[<-|[]]]; reflexivity)
             2%nat ltac:(lia)).
  - destruct (correlation_matrix_diagonal sample_frame 0%nat temperature
                eq_refl) as [Hone _].
    apply Hone. exists 23, 33. simpl. repeat split; auto; lra.
Defined.

End Correlations.

(** ** The key metrics *)

Section KeyMetricsFacts.
Local Open Scope R_scope.

Lemma series_mean_some (l : list R) :
  l <> [] -> series_mean l = Some (mean l).
Proof. destruct l; [congruence | reflexivity]. Qed.

(** What the key metrics return. *)
Lemma key_metrics_subset_lemma
    (df : DataFrame) (date_range : list Timestamp) (season_filter : string) :
  exists subset,
    apply_filters df date_range season_filter = Returned subset
    /\ (subset = [] ->
        key_metrics df date_range season_filter = Raised "ValueError")
    /\ (subset <> [] ->
        exists km,
          key_metrics df date_range season_filter = Returned km
          /\ km_rainy_days km = get_rainy_days_count subset
          /\ km_avg_temp km = Some (mean (column temperature subset))
          /\ km_avg_humidity km = Some (mean (column humidity subset))
          /\ km_avg_rainfall km = Some (mean (column rainfall subset))
          /\ km_delta_temp km
             = Some (mean (column temperature subset)
                     - mean (column temperature df))
          /\ km_delta_humidity km
             = Some (mean (column humidity subset)
                     - mean (column humidity df))
          /\ km_delta_rainfall km
             = Some (mean (column rainfall subset)
                     - mean (column rainfall df))
          /\ (km_delta_rainy_days km <= 0)%Z).
Proof.
  destruct (apply_filters_spec df date_range season_filter)
    as (subset & Hret & Hsub & _).
  exists subset. split; [exact Hret|].
  unfold key_metrics. rewrite Hret. cbn [mbind outcome_bind]. split.
  - intros ->. reflexivity.
  - intros Hne.
    destruct (get_extreme_days_returns subset Hne) as (e & ->).
    cbn [mbind outcome_bind mret outcome_ret].
    eexists. split; [reflexivity|].
    cbn [km_rainy_days km_avg_temp km_avg_humidity km_avg_rainfall
         km_delta_temp km_delta_humidity km_delta_rainfall
         km_delta_rainy_days].
    assert (Hdf : df <> []).
    { intros ->. apply sublist_nil_r in Hsub. contradiction. }
    assert (Hs : forall f : WeatherRecord -> R,
               series_mean (column f subset) = Some (mean (column f subset)))
      by (intros f; apply series_mean_some, map_not_nil, Hne).
    assert (Hd : forall f : WeatherRecord -> R,
               series_mean (column f df) = Some (mean (column f df)))
      by (intros f; apply series_mean_some, map_not_nil, Hdf).
    rewrite !Hs, !Hd. cbn [nan_sub].
    repeat (split; [reflexivity|]).
    pose proof (rainy_days_sublist subset df Hsub). lia.
Qed.

(** X25. The key metrics fail with [ValueError] when the filters keep no
    row.  When they keep one, the three averages and their differences from
    the averages of all the data are numbers, never NaN, and the difference
    in rainy days is never positive. *)
Theorem key_metrics_of_subset
    (df : DataFrame) (date_range : list Timestamp) (season_filter : string) :
  exists subset,
    apply_filters df date_range season_filter = Returned subset
    /\ (subset = [] ->
        key_metrics df date_range season_filter = Raised "ValueError")
    /\ (subset <> [] ->
        exists km,
          key_metrics df date_range season_filter = Returned km
          /\ km_rainy_days km = get_rainy_days_count subset
          /\ km_avg_temp km = Some (mean (column temperature subset))
          /\ km_avg_humidity km = Some (mean (column humidity subset))
          /\ km_avg_rainfall km = Some (mean (column rainfall subset))
          /\ km_delta_temp km
             = Some (mean (column temperature subset)
                     - mean (column temperature df))
          /\ km_delta_humidity km
             = Some (mean (column humidity subset)
                     - mean (column humidity df))
          /\ km_delta_rainfall km
             = Some (mean (column rainfall subset)
                     - mean (column rainfall df))
          /\ (km_delta_rainy_days km <= 0)%Z).
Proof. intros. eapply key_metrics_subset_lemma; eassumption. Qed.

Lemma full_year_keeps_all (rng : RandomState) (df : DataFrame) :
  generate_weather_data rng = Returned df ->
  apply_filters df [to_datetime 2024 1 1; to_datetime 2024 12 31] ALL_SEASONS
  = Returned df.
Proof.
  intros Hdf.
  destruct (generated_frame_facts rng df Hdf) as (Hdates & _ & _).
  unfold apply_filters. f_equal.
  change (negb (ALL_SEASONS =? ALL_SEASONS)%string) with false.
  cbv iota. apply filter_all.
  apply Forall_forall. intros ir Hir.
  pose proof year_dates_bounds as Hb. rewrite Forall_forall in Hb.
  assert (Hd : date (snd ir) ∈ year_dates).
  { rewrite <- Hdates. unfold column.
    apply list_elem_of_In,
      (in_map (fun ir : nat * WeatherRecord => date (snd ir))).
    apply list_elem_of_In, Hir. }
  specialize (Hb _ Hd). lia.
Qed.

(** X26. With the whole year and all seasons selected, the key metrics of
    the generated data are returned and all four differences are 0. *)
Theorem key_metrics_full_year_deltas (rng : RandomState) :
  exists df km,
    generate_weather_data rng = Returned df
    /\ key_metrics df [to_datetime 2024 1 1; to_datetime 2024 12 31]
         ALL_SEASONS
       = Returned km
    /\ km_delta_temp km = Some 0
    /\ km_delta_humidity km = Some 0
    /\ km_delta_rainfall km = Some 0
    /\ km_delta_rainy_days km = 0%Z.
Proof.
  destruct (generate_weather_data_total rng) as (df & Hdf).
  pose proof (full_year_keeps_all rng df Hdf) as Hall.
  destruct (generated_frame_facts rng df Hdf) as (_ & Hlabels & _).
  assert (Hne : df <> []).
  { intros ->. discriminate Hlabels. }
  destruct (key_metrics_subset_lemma df
              [to_datetime 2024 1 1; to_datetime 2024 12 31] ALL_SEASONS)
    as (subset & Hret & _ & Hsome).
  assert (subset = df) by congruence. subst subset.
  destruct (Hsome Hne)
    as (km & Hkm & Hrainy & _ & _ & _ & Ht & Hh & Hr & _).
  exists df, km. split; [exact Hdf|]. split; [exact Hkm|].
  rewrite Ht, Hh, Hr. repeat (split; [f_equal; lra|]).
  unfold key_metrics in Hkm. rewrite Hall in Hkm.
  cbn [mbind outcome_bind] in Hkm.
  destruct (get_extreme_days df) as [e|]; [|discriminate].
  cbn [mbind outcome_bind mret outcome_ret] in Hkm.
  injection Hkm as <-. cbn [km_delta_rainy_days]. lia.
Qed.

End KeyMetricsFacts.

(** ** The humidity curve *)

Section HumidityCurve.
Local Open Scope R_scope.

Lemma humidities_nth rng n i :
  (i < n)%nat ->
  nth i (humidities rng n) 0
  = Rmin (Rmax (60 + 20 * sin (INR i / 365 * 2 * PI) + normal rng 0 10 i) 20)
         100.
Proof.
  intros Hi. apply nth_lookup_Some with (d := 0).
  unfold humidities, np_clip, np_add, np_arange, np_random_normal.
  rewrite list_lookup_fmap, lookup_zip_with, !list_lookup_fmap.
  rewrite (lookup_seq_lt 0 n i Hi). reflexivity.
Qed.

(** X27. Each day's humidity is 60 + 20 sin(2 pi day_index / 365) plus that
    day's draw of [np.random.normal(0, 10)], brought back to 20 when below
    and to 100 when above: it is that sum itself whenever the sum lies in
    [20, 100]. *)
Theorem generated_humidity_curve (rng : RandomState) :
  exists df,
    generate_weather_data rng = Returned df
    /\ forall i, (i < 366)%nat ->
         exists r,
           df !! i = Some (i, r)
           /\ let raw := 60 + 20 * sin (INR i / 365 * 2 * PI)
                         + normal rng 0 10 i in
              (raw < 20 -> humidity r = 20)
              /\ (20 <= raw <= 100 -> humidity r = raw)
              /\ (100 < raw -> humidity r = 100).
Proof.
  destruct (generate_weather_data_returns rng) as (rains & _ & _ & Hgen).
  eexists. split; [exact Hgen|]. intros i Hi.
  set (row := frame_row year_dates (temperatures rng 366)
                        (humidities rng 366) rains).
  exists (snd (row i)). split.
  - rewrite list_lookup_fmap, (lookup_seq_lt 0 366 i Hi). reflexivity.
  - unfold row, frame_row. cbn [snd humidity].
    rewrite (humidities_nth rng 366 i Hi).
    set (raw := 60 + 20 * sin (INR i / 365 * 2 * PI) + normal rng 0 10 i).
    cbv zeta. split; [|split]; intros Hraw.
    + rewrite (Rmax_right raw 20), (Rmin_left 20 100) by lra. reflexivity.
    + rewrite (Rmax_left raw 20), (Rmin_left raw 100) by lra. reflexivity.
    + rewrite (Rmax_left raw 20), (Rmin_right raw 100) by lra. reflexivity.
Qed.

End HumidityCurve.


(** ** Averages of the generated data *)

Section GeneratedAverages.
Local Open Scope R_scope.

(** X13. Whatever the draws and the filters, every monthly and seasonal
    average humidity of the filtered generated data that is not NaN lies in
    [20, 100], and every average rainfall that is not NaN is at least 0. *)
Theorem generated_averages_in_range
    (rng : RandomState) (date_range : list Timestamp)
    (season_filter : string) :
  exponential_nonneg rng ->
  exists df subset,
    generate_weather_data rng = Returned df
    /\ apply_filters df date_range season_filter = Returned subset
    /\ forall k a,
         In (k, a) (get_monthly_averages subset)
         \/ In (k, a) (get_seasonal_averages subset) ->
         (forall x, avg_humidity a = Some x -> 20 <= x <= 100)
         /\ (forall x, avg_rainfall a = Some x -> 0 <= x).
Proof.
  intros Hexp.
  destruct (generate_weather_data_total rng) as (df & Hdf).
  destruct (generated_ranges rng df Hexp Hdf) as (Hhum & Hrain).
  destruct (apply_filters_spec df date_range season_filter)
    as (subset & Hret & Hsub & _).
  exists df, subset. split; [exact Hdf|]. split; [exact Hret|].
  pose proof (sublist_Forall _ _ _ Hsub Hhum) as Hh.
  pose proof (sublist_Forall _ _ _ Hsub Hrain) as Hr.
  intros k a Hin.
  assert (Hcell : exists key,
             a = nan_row
             \/ (rows_of key k subset <> []
                 /\ a = group_mean (rows_of key k subset))).
  { destruct Hin as [H|H];
      [exists month_name | exists season]; eapply averages_cell, H. }
  destruct Hcell as (key & [->|(Hne & ->)]).
  - split; intros x Hx; discriminate.
  - split; intros x Hx; injection Hx as <-.
    + apply mean_bounds; [apply map_not_nil, Hne|].
      apply map_Forall.
      exact (rows_of_Forall key k (fun r => 20 <= humidity r <= 100)
               subset Hh).
    + apply mean_nonneg; [apply map_not_nil, Hne|].
      apply map_Forall.
      exact (rows_of_Forall key k (fun r => 0 <= rainfall r) subset Hr).
Qed.

Lemma generated_averages_in_range_witness :
  exponential_nonneg sample_rng
  /\ exists df subset,
       generate_weather_data sample_rng = Returned df
       /\ apply_filters df [] "Fall" = Returned subset.
Proof.
  assert (H : exponential_nonneg sample_rng)
    by (intros scale k Hscale; exact Hscale).
  split; [exact H|].
  destruct (generated_averages_in_range sample_rng [] "Fall" H)
    as (df & subset & Hdf & Hret & _).
  exists df, subset. auto.
Defined.

End GeneratedAverages.
